(** * prosemirror-typerighter: the validation state and its reducer

    A shallow embedding of the plugin's reducer ([state.ts]), of the plugin
    wiring ([createValidationPlugin.ts]) and of the scheduling part of
    [services/ValidationAPIService.ts], with the properties of the
    validation engine proved over it.

    Document offsets and durations are JavaScript numbers holding integers
    and are modelled as [Z]; arrays are lists; [T | undefined] is
    [option T]. *)

From Stdlib Require Import ZArith List String Bool Lia DecimalString.
Import ListNotations.
Open Scope Z_scope.

(** ** interfaces/IValidation *)

(** [IRange]: a half-open pair of document offsets. *)
Record IRange := mkRange { from : Z; to : Z }.

(** The range helpers are generic in [T extends IRange]: whatever carries a
    [from] and a [to].  [withRange] is the object spread
    [{ ...x, from, to }]. *)
Class ExtendsIRange (T : Type) := {
  getFrom : T -> Z;
  getTo : T -> Z;
  withRange : T -> Z -> Z -> T
}.

#[export] Instance IRange_range : ExtendsIRange IRange := {
  getFrom := from;
  getTo := to;
  withRange := fun _ f t => mkRange f t
}.

(** [IValidationInput]: a range with the text captured at request time. *)
Record IValidationInput := mkInput {
  in_from : Z;
  in_to : Z;
  inputString : string
}.

#[export] Instance IValidationInput_range : ExtendsIRange IValidationInput := {
  getFrom := in_from;
  getTo := in_to;
  withRange := fun i f t => mkInput f t (inputString i)
}.

(** Modelled from the spec: the declaration of [IValidationOutput] is not
    among the sources.  An accepted result: range, identifier, the text it
    was computed for, annotation, category and suggestion list. *)
Record IValidationOutput := mkOutput {
  out_id : string;
  out_from : Z;
  out_to : Z;
  out_inputString : string;
  annotation : string;
  out_type : string;
  suggestions : list string
}.

#[export] Instance IValidationOutput_range : ExtendsIRange IValidationOutput := {
  getFrom := out_from;
  getTo := out_to;
  withRange := fun o f t =>
    mkOutput (out_id o) f t (out_inputString o) (annotation o) (out_type o)
             (suggestions o)
}.

(** [IValidationResponse], as the reducer reads it: [response.id] and
    [response.validationOutputs]. *)
Record IValidationResponse := mkResponse {
  resp_id : string;
  validationOutputs : list IValidationOutput
}.

(** [IValidationError], as the reducer reads it: [id], [validationInput]
    and [message]. *)
Record IValidationError := mkError {
  err_id : string;
  err_validationInput : IValidationInput;
  message : string
}.

(** ** The position mapper

    [Mapping] belongs to prosemirror-transform.  The reducer builds one with
    [new Mapping()], grows it with [appendMapping], and hands it to the
    range helpers; the helpers relocate a [from]/[to] pair through it. *)
Class PositionMapper (Mapping : Type) := {
  newMapping : Mapping;
  appendMapping : Mapping -> Mapping -> Mapping;
  mapFromTo : Mapping -> Z -> Z -> Z * Z
}.

(** ** utils/range *)

Section RangeUtils.

Context {Mapping : Type} `{PositionMapper Mapping}.

(** [Array.prototype.findIndex]: the first index whose element satisfies
    [p], [-1] when there is none. *)
Fixpoint findIndexFrom {A : Type} (p : A -> bool) (i : Z) (xs : list A) : Z :=
  match xs with
  | [] => -1
  | x :: rest => if p x then i else findIndexFrom p (i + 1) rest
  end.

Definition findIndex {A : Type} (p : A -> bool) (xs : list A) : Z :=
  findIndexFrom p 0 xs.

(** Modelled from the spec: [utils/range.ts] is not among the sources.
    The intersection test of [findOverlap]:
    [set[i].from < range.to && set[i].to > range.from]. *)
Definition intersects {A B : Type} `{ExtendsIRange A} `{ExtendsIRange B}
    (range : A) (localRange : B) : bool :=
  (getFrom localRange <? getTo range) && (getTo localRange >? getFrom range).

(** Modelled from the spec: [utils/range.ts] is not among the sources.
    [findOverlap(range, set)]: the first index [i] such that [set[i]]
    intersects [range], else not found ([-1], which the reducer tests). *)
Definition findOverlappingRangeIndex {A B : Type}
    `{ExtendsIRange A} `{ExtendsIRange B} (range : A) (ranges : list B) : Z :=
  findIndex (intersects range) ranges.

(** Modelled from the spec: [utils/range.ts] is not among the sources.
    [removeOverlapping(set, blockers)]: the subset of [set] with no element
    overlapping any element of [blockers]. *)
Definition removeOverlappingRanges {A B : Type}
    `{ExtendsIRange A} `{ExtendsIRange B}
    (firstRanges : list A) (secondRanges : list B) : list A :=
  filter (fun range => findOverlappingRangeIndex range secondRanges =? -1)
         firstRanges.

(** Modelled from the spec: [utils/range.ts] is not among the sources.
    The order [merge] sorts by: [from], then [to]. *)
Definition rangeLeb (a b : IRange) : bool :=
  (from a <? from b) || ((from a =? from b) && (to a <=? to b)).

(** Modelled from the spec: the sort of [merge], as an insertion sort. *)
Fixpoint insertRange (r : IRange) (sorted : list IRange) : list IRange :=
  match sorted with
  | [] => [r]
  | x :: rest => if rangeLeb r x then r :: sorted else x :: insertRange r rest
  end.

(** Modelled from the spec: the sort of [merge]. *)
Definition sortRanges (ranges : list IRange) : list IRange :=
  fold_right insertRange [] ranges.

(** Modelled from the spec: the collapse of [merge] over a sorted list.
    Two ranges [[a,b)] and [[c,d)] merge iff [c <= b] (touching counts), so
    [current] absorbs [next] whenever [next.from <= current.to]. *)
Fixpoint collapseRanges (current : IRange) (rest : list IRange) : list IRange :=
  match rest with
  | [] => [current]
  | next :: rest' =>
      if from next <=? to current
      then collapseRanges (mkRange (from current) (Z.max (to current) (to next)))
                          rest'
      else current :: collapseRanges next rest'
  end.

(** Modelled from the spec: [utils/range.ts] is not among the sources.
    [merge(ranges)]: sort by [from], then [to]; collapse overlapping or
    adjacent ranges into one. *)
Definition mergeRanges (ranges : list IRange) : list IRange :=
  match sortRanges ranges with
  | [] => []
  | first :: rest => collapseRanges first rest
  end.

(** Modelled from the spec: [utils/range.ts] is not among the sources.
    Relocating one range through a mapper, the other fields kept. *)
Definition mapRange {A : Type} `{ExtendsIRange A} (range : A) (mapping : Mapping)
    : A :=
  let '(f, t) := mapFromTo mapping (getFrom range) (getTo range) in
  withRange range f t.

(** Modelled from the spec: [utils/range.ts] is not among the sources.
    [mapThrough(set, mapper)] without merge semantics. *)
Definition mapRanges {A : Type} `{ExtendsIRange A} (ranges : list A)
    (mapping : Mapping) : list A :=
  map (fun range => mapRange range mapping) ranges.

(** Modelled from the spec: [utils/range.ts] is not among the sources.
    [mapThrough(set, mapper)] with merge semantics. *)
Definition mapAndMergeRanges (ranges : list IRange) (mapping : Mapping)
    : list IRange :=
  mergeRanges (mapRanges ranges mapping).

(** Modelled from the spec: [utils/range.ts] is not among the sources.
    The range of a validation input. *)
Definition validationInputToRange (validationInput : IValidationInput) : IRange :=
  mkRange (in_from validationInput) (in_to validationInput).

(** Modelled from the spec: [utils/range.ts] is not among the sources.
    Each incoming output is mapped through the in-flight entry's mapping and
    merged into the current outputs, replacing any prior entry with the same
    identifier.  (The overlap test against the dirtied ranges is the
    reducer's own next step.) *)
Definition getCurrentValidationsFromValidationResponse
    (validationInput : IValidationInput)
    (incomingOutputs currentOutputs : list IValidationOutput)
    (mapping : Mapping) : list IValidationOutput :=
  let newOutputs := mapRanges incomingOutputs mapping in
  filter (fun current =>
            negb (existsb (fun o => String.eqb (out_id o) (out_id current))
                          newOutputs))
         currentOutputs
  ++ newOutputs.

End RangeUtils.

(** ** state.ts *)

(** The host document, a prosemirror-model [Node]: the reducer reads text
    with [textBetween].  [createValidationInputsForDocument] belongs to
    [utils/prosemirror.ts], which is not among the sources; it is a
    parameter here. *)
Class DocumentSource (Node : Type) := {
  textBetween : Node -> Z -> Z -> string;
  createValidationInputsForDocument : Node -> list IValidationInput
}.

(** Information about the span element the user is hovering over (pixel
    measures, carried through untouched). *)
Record IStateHoverInfo := mkHoverInfo {
  offsetLeft : Z;
  offsetTop : Z;
  left : Z;
  top : Z;
  height : Z;
  mouseOffsetX : Z;
  mouseOffsetY : Z;
  heightOfSingleLine : Z
}.

(** [Number.prototype.toString] on an integer: its decimal numeral. *)
Definition toString (n : Z) : string := NilZero.string_of_int (Z.to_int n).

Section State.

Context {Mapping Node : Type} `{PositionMapper Mapping} `{DocumentSource Node}.

Definition ExpandRanges : Type := list IRange -> Node -> list IRange.

(** The actions, one constructor per action creator. *)
Inductive Action : Type :=
| validationRequestForDirtyRanges (expandRanges : ExpandRanges)
| validationRequestForDocument
| validationRequestSuccess (response : option IValidationResponse)
| validationRequestError (validationError : IValidationError)
| newHoverIdReceived (hoverId : option string)
                     (hoverInfo : option IStateHoverInfo)
| applyNewDirtiedRanges (ranges : list IRange)
| selectValidation (validationId : string)
| setDebugState (debug : bool).

(** What the plugin reads of a prosemirror-state [Transaction]: its
    mapping, the document it produces, its timestamp, and the action stored
    under the [VALIDATION_PLUGIN_ACTION] meta key, if any. *)
Record Transaction := mkTransaction {
  tr_mapping : Mapping;
  tr_doc : Node;
  tr_time : Z;
  tr_meta : option Action
}.

Record IValidationInFlight := mkInFlight {
  mapping : Mapping;
  validationInput : IValidationInput;
  id : string
}.

(** [IPluginState].  The [decorations] field, a prosemirror-view
    [DecorationSet], is the rendering of the other fields: every handler
    computes it on the side, from the decoration helpers, and no other field
    is ever computed from it.  The embedding leaves the field out, and with
    it the statements of the handlers that only build decorations. *)
Record IPluginState := mkState {
  debug : bool;
  initialThrottle : Z;
  currentThrottle : Z;
  maxThrottle : Z;
  currentValidations : list IValidationOutput;
  dirtiedRanges : list IRange;
  selectedValidation : option string;
  hoverId : option string;
  hoverInfo : option IStateHoverInfo;
  trHistory : list Transaction;
  validationPending : bool;
  validationsInFlight : list IValidationInFlight;
  error : option string
}.

Definition createInitialState (doc : Node) (throttleInMs maxThrottle : Z)
    : IPluginState :=
  {| debug := false;
     currentThrottle := throttleInMs;
     initialThrottle := throttleInMs;
     maxThrottle := maxThrottle;
     dirtiedRanges := [];
     currentValidations := [];
     selectedValidation := None;
     hoverId := None;
     hoverInfo := None;
     trHistory := [];
     validationsInFlight := [];
     validationPending := false;
     error := None |}.

(** *** Selectors *)

Definition selectValidationById (state : IPluginState) (i : string)
    : option IValidationOutput :=
  find (fun validation => String.eqb (out_id validation) i)
       (currentValidations state).

Definition selectValidationInFlightById (state : IPluginState) (i : string)
    : option IValidationInFlight :=
  find (fun v => String.eqb (id v) i) (validationsInFlight state).

(** lodash [without(array, value)] keeps the elements that are not the
    object [value].  The entries of [validationsInFlight] are pairwise
    distinct objects (each is created by its own object literal, and the
    reducer rebuilds every entry on every transaction), and the reducer only
    ever passes the entry that [selectValidationInFlightById] found, which is
    the first entry carrying the id [i]; so the call drops exactly that
    entry, and later entries with equal contents stay. *)
Fixpoint withoutInFlight (inFlight : list IValidationInFlight) (i : string)
    : list IValidationInFlight :=
  match inFlight with
  | [] => []
  | v :: rest => if String.eqb (id v) i then rest else v :: withoutInFlight rest i
  end.

(** *** Action handlers *)

Definition handleSelectValidation (_ : Transaction) (state : IPluginState)
    (validationId : string) : IPluginState :=
  {| debug := debug state;
     initialThrottle := initialThrottle state;
     currentThrottle := currentThrottle state;
     maxThrottle := maxThrottle state;
     currentValidations := currentValidations state;
     dirtiedRanges := dirtiedRanges state;
     selectedValidation := Some validationId;
     hoverId := hoverId state;
     hoverInfo := hoverInfo state;
     trHistory := trHistory state;
     validationPending := validationPending state;
     validationsInFlight := validationsInFlight state;
     error := error state |}.

Definition handleNewHoverId (tr : Transaction) (state : IPluginState)
    (incomingHoverId : option string) (incomingHoverInfo : option IStateHoverInfo)
    : IPluginState :=
  {| debug := debug state;
     initialThrottle := initialThrottle state;
     currentThrottle := currentThrottle state;
     maxThrottle := maxThrottle state;
     currentValidations := currentValidations state;
     dirtiedRanges := dirtiedRanges state;
     selectedValidation := selectedValidation state;
     hoverId := incomingHoverId;
     hoverInfo := incomingHoverInfo;
     trHistory := trHistory state;
     validationPending := validationPending state;
     validationsInFlight := validationsInFlight state;
     error := error state |}.

Definition handleNewDirtyRanges (tr : Transaction) (state : IPluginState)
    (newRanges : list IRange) : IPluginState :=
  let currentValidations' :=
    filter (fun output => findOverlappingRangeIndex output newRanges =? -1)
           (currentValidations state) in
  {| debug := debug state;
     initialThrottle := initialThrottle state;
     currentThrottle := currentThrottle state;
     maxThrottle := maxThrottle state;
     currentValidations := currentValidations';
     dirtiedRanges := dirtiedRanges state ++ newRanges;
     selectedValidation := selectedValidation state;
     hoverId := hoverId state;
     hoverInfo := hoverInfo state;
     trHistory := trHistory state;
     validationPending := true;
     validationsInFlight := validationsInFlight state;
     error := error state |}.

(** Handle a validation request for a given set of validation inputs. *)
Definition handleValidationRequestStart (validationInputs : list IValidationInput)
    (tr : Transaction) (state : IPluginState) : IPluginState :=
  {| debug := debug state;
     initialThrottle := initialThrottle state;
     currentThrottle := currentThrottle state;
     maxThrottle := maxThrottle state;
     currentValidations := currentValidations state;
     dirtiedRanges := [];
     selectedValidation := selectedValidation state;
     hoverId := hoverId state;
     hoverInfo := hoverInfo state;
     trHistory := trHistory state;
     validationPending := false;
     validationsInFlight :=
       validationsInFlight state ++
       map (fun validationInput =>
              {| id := toString (tr_time tr);
                 mapping := newMapping;
                 validationInput := validationInput |})
           validationInputs;
     error := error state |}.

(** Handle a validation request for the current set of dirty ranges. *)
Definition handleValidationRequestForDirtyRanges (tr : Transaction)
    (state : IPluginState) (expandRanges : ExpandRanges) : IPluginState :=
  let ranges := expandRanges (dirtiedRanges state) (tr_doc tr) in
  let validationInputs :=
    map (fun range =>
           {| inputString := textBetween (tr_doc tr) (from range) (to range);
              in_from := from range;
              in_to := to range |})
        ranges in
  handleValidationRequestStart validationInputs tr state.

(** Handle a validation request for the entire document. *)
Definition handleValidationRequestForDocument (tr : Transaction)
    (state : IPluginState) : IPluginState :=
  handleValidationRequestStart (createValidationInputsForDocument (tr_doc tr))
                               tr state.

(** Handle a validation response. *)
Definition handleValidationRequestSuccess (tr : Transaction)
    (state : IPluginState) (response : option IValidationResponse)
    : IPluginState :=
  match response with
  | None => state
  | Some response =>
    match selectValidationInFlightById state (resp_id response) with
    | None => state
    | Some validationInFlight =>
      let currentValidations' :=
        getCurrentValidationsFromValidationResponse
          (validationInput validationInFlight)
          (validationOutputs response)
          (currentValidations state)
          (mapping validationInFlight) in
      let currentValidations'' :=
        removeOverlappingRanges currentValidations' (dirtiedRanges state) in
      {| debug := debug state;
         initialThrottle := initialThrottle state;
         currentThrottle := currentThrottle state;
         maxThrottle := maxThrottle state;
         currentValidations := currentValidations'';
         dirtiedRanges := dirtiedRanges state;
         selectedValidation := selectedValidation state;
         hoverId := hoverId state;
         hoverInfo := hoverInfo state;
         trHistory := trHistory state;
         validationPending := validationPending state;
         validationsInFlight :=
           withoutInFlight (validationsInFlight state) (resp_id response);
         error := error state |}
    end
  end.

(** Handle a validation request error. *)
Definition handleValidationRequestError (tr : Transaction)
    (state : IPluginState) (validationError : IValidationError)
    : IPluginState :=
  let validationInFlight :=
    selectValidationInFlightById state (err_id validationError) in
  let newDirtiedRanges :=
    match validationInFlight with
    | Some v =>
        mapRanges
          [validationInputToRange (err_validationInput validationError)]
          (mapping v)
    | None => []
    end in
  {| debug := debug state;
     initialThrottle := initialThrottle state;
     currentThrottle := currentThrottle state;
     maxThrottle := maxThrottle state;
     currentValidations := currentValidations state;
     dirtiedRanges :=
       if 0 <? Z.of_nat (List.length newDirtiedRanges)
       then mergeRanges (dirtiedRanges state ++ newDirtiedRanges)
       else dirtiedRanges state;
     selectedValidation := selectedValidation state;
     hoverId := hoverId state;
     hoverInfo := hoverInfo state;
     trHistory := trHistory state;
     validationPending := validationPending state;
     validationsInFlight :=
       match validationInFlight with
       | Some _ =>
           withoutInFlight (validationsInFlight state) (err_id validationError)
       | None => validationsInFlight state
       end;
     error := Some (message validationError) |}.

Definition handleSetDebugState (_ : Transaction) (state : IPluginState)
    (debug' : bool) : IPluginState :=
  {| debug := debug';
     initialThrottle := initialThrottle state;
     currentThrottle := currentThrottle state;
     maxThrottle := maxThrottle state;
     currentValidations := currentValidations state;
     dirtiedRanges := dirtiedRanges state;
     selectedValidation := selectedValidation state;
     hoverId := hoverId state;
     hoverInfo := hoverInfo state;
     trHistory := trHistory state;
     validationPending := validationPending state;
     validationsInFlight := validationsInFlight state;
     error := error state |}.

(** *** Reducer *)

(** What the reducer does on every transaction, before any action: the
    dirtied ranges and the validations are mapped through the transaction,
    and every in-flight entry gets a new mapping made of its own followed by
    the transaction's. *)
Definition mapThroughTransaction (tr : Transaction)
    (incomingState : IPluginState) : IPluginState :=
  {| debug := debug incomingState;
     initialThrottle := initialThrottle incomingState;
     currentThrottle := currentThrottle incomingState;
     maxThrottle := maxThrottle incomingState;
     currentValidations :=
       mapRanges (currentValidations incomingState) (tr_mapping tr);
     dirtiedRanges :=
       mapAndMergeRanges (dirtiedRanges incomingState) (tr_mapping tr);
     selectedValidation := selectedValidation incomingState;
     hoverId := hoverId incomingState;
     hoverInfo := hoverInfo incomingState;
     trHistory := trHistory incomingState;
     validationPending := validationPending incomingState;
     validationsInFlight :=
       map (fun v =>
              {| id := id v;
                 validationInput := validationInput v;
                 mapping :=
                   appendMapping (appendMapping newMapping (mapping v))
                                 (tr_mapping tr) |})
           (validationsInFlight incomingState);
     error := error incomingState |}.

Definition validationPluginReducer (tr : Transaction)
    (incomingState : IPluginState) (action : option Action) : IPluginState :=
  let state := mapThroughTransaction tr incomingState in
  match action with
  | None => state
  | Some (newHoverIdReceived hoverId hoverInfo) =>
      handleNewHoverId tr state hoverId hoverInfo
  | Some (validationRequestForDirtyRanges expandRanges) =>
      handleValidationRequestForDirtyRanges tr state expandRanges
  | Some validationRequestForDocument =>
      handleValidationRequestForDocument tr state
  | Some (validationRequestSuccess response) =>
      handleValidationRequestSuccess tr state response
  | Some (validationRequestError validationError) =>
      handleValidationRequestError tr state validationError
  | Some (selectValidation validationId) =>
      handleSelectValidation tr state validationId
  | Some (applyNewDirtiedRanges ranges) =>
      handleNewDirtyRanges tr state ranges
  | Some (setDebugState debug) =>
      handleSetDebugState tr state debug
  end.

End State.

(** [ICategory], as the sources read and build it: [id], [name] and
    [colour]. *)
Record ICategory := mkCategory {
  cat_id : string;
  cat_name : string;
  colour : string
}.

(** ** Scheduling

    The two schedulers act on the outside world in three ways only; a call
    returns the list of what it did, in order. *)
Inductive Effect {Node : Type} : Type :=
| SetTimeout (callbackDelay : Z)
    (** [setTimeout(requestValidation, callbackDelay)] *)
| Dispatch (action : @Action Node)
    (** [localView.dispatch(localView.state.tr.setMeta(VALIDATION_PLUGIN_ACTION, action))] *)
| ValidateDirtyRangesCommand
    (** [commands.validateDirtyRangesCommand()] *).

(** *** createValidationPlugin.ts *)

Module Plugin.
Section Plugin.

Context {Mapping Node : Type} `{PositionMapper Mapping} `{DocumentSource Node}.

(** The truthiness of [pluginState.validationInFlight].  The state
    interface declares [validationsInFlight]; [createInitialState] builds no
    property named [validationInFlight] and no handler adds one, so the read
    yields [undefined], which is falsy. *)
Definition validationInFlight (pluginState : @IPluginState Mapping Node)
    : bool :=
  false.

Variable expandRanges : @ExpandRanges Node.

Definition scheduleValidation (pluginState : @IPluginState Mapping Node)
    : list (@Effect Node) :=
  [SetTimeout (currentThrottle pluginState)].

(** Request a validation for the currently pending ranges. *)
Definition requestValidation (pluginState : @IPluginState Mapping Node)
    : list (@Effect Node) :=
  if validationInFlight pluginState
  then scheduleValidation pluginState
  else [Dispatch (validationRequestForDirtyRanges expandRanges)].

(** The plugin's [state.apply].  This file calls the range helpers with the
    transaction first ([mapAndMergeRanges(tr, ranges)]): the ranges go
    through [tr.mapping]. *)
Definition apply (tr : @Transaction Mapping Node)
    (state : @IPluginState Mapping Node) : @IPluginState Mapping Node :=
  let newState :=
    {| debug := debug state;
       initialThrottle := initialThrottle state;
       currentThrottle := currentThrottle state;
       maxThrottle := maxThrottle state;
       currentValidations :=
         mapRanges (currentValidations state) (tr_mapping tr);
       dirtiedRanges := mapAndMergeRanges (dirtiedRanges state) (tr_mapping tr);
       selectedValidation := selectedValidation state;
       hoverId := hoverId state;
       hoverInfo := hoverInfo state;
       trHistory :=
         if Z.of_nat (List.length (trHistory state)) >? 25
         then tl (trHistory state) ++ [tr]
         else trHistory state ++ [tr];
       validationPending := validationPending state;
       validationsInFlight := validationsInFlight state;
       error := error state |} in
  validationPluginReducer tr newState (tr_meta tr).

(** The plugin state after a sequence of transactions, oldest first. *)
Definition applyAll (trs : list (@Transaction Mapping Node))
    (state : @IPluginState Mapping Node) : @IPluginState Mapping Node :=
  fold_left (fun s tr => apply tr s) trs state.

(** [getReplaceStepRangesFromTransaction] belongs to
    [utils/prosemirror.ts], which is not among the sources; it is a
    parameter here. *)
Variable getReplaceStepRangesFromTransaction :
  @Transaction Mapping Node -> list IRange.

(** The plugin's [appendTransaction]: [trs] are the transactions just
    applied and [pluginState] the plugin state they led to
    ([plugin.getState(newState)]); [viewPluginState] is the plugin state of
    the view at that moment ([plugin.getState(localView.state)]), from which
    [scheduleValidation] takes the throttle.  The result is what was done,
    and the action set on the transaction returned, if one is returned. *)
Definition appendTransaction (trs : list (@Transaction Mapping Node))
    (viewPluginState pluginState : @IPluginState Mapping Node)
    : list (@Effect Node) * option (@Action Node) :=
  let newDirtiedRanges :=
    fold_left (fun acc range => acc ++ getReplaceStepRangesFromTransaction range)
              trs [] in
  if 0 <? Z.of_nat (List.length newDirtiedRanges)
  then ((if negb (validationPending pluginState)
         then scheduleValidation viewPluginState
         else []),
        Some (applyNewDirtiedRanges newDirtiedRanges))
  else ([], None).

End Plugin.
End Plugin.

(** *** services/ValidationAPIService.ts *)

Module Service.
Section Service.

Context {Mapping Node : Type} `{PositionMapper Mapping} `{DocumentSource Node}.

(** The fields of [ValidationService] that scheduling reads and writes. *)
Record ValidationService := mkService {
  currentThrottle : Z;
  initialThrottle : Z;
  maxThrottle : Z;
  validationPending : bool
}.

Definition newValidationService (initialThrottle maxThrottle : Z)
    : ValidationService :=
  {| currentThrottle := initialThrottle;
     initialThrottle := initialThrottle;
     maxThrottle := maxThrottle;
     validationPending := false |}.

(** Modelled from the spec: the selector [selectValidationsInFlight] is not
    in the [state.ts] among the sources.  The requests currently in
    flight. *)
Definition selectValidationsInFlight (state : @IPluginState Mapping Node)
    : list (@IValidationInFlight Mapping) :=
  validationsInFlight state.

(** Schedule a validation for the next throttle tick. *)
Definition scheduleValidation (this : ValidationService)
    : ValidationService * list (@Effect Node) :=
  if validationPending this
  then (this, [])
  else ({| currentThrottle := currentThrottle this;
           initialThrottle := initialThrottle this;
           maxThrottle := maxThrottle this;
           validationPending := true |},
        [SetTimeout (currentThrottle this)]).

(** Request a validation; what the timer set by [scheduleValidation] calls.
    [pluginState] is [this.store.getState()]. *)
Definition requestValidation (this : ValidationService)
    (pluginState : option (@IPluginState Mapping Node))
    : ValidationService * list (@Effect Node) :=
  let this' :=
    {| currentThrottle := currentThrottle this;
       initialThrottle := initialThrottle this;
       maxThrottle := maxThrottle this;
       validationPending := false |} in
  match pluginState with
  | None => scheduleValidation this'
  | Some pluginState =>
      if 0 <? Z.of_nat (List.length (selectValidationsInFlight pluginState))
      then scheduleValidation this'
      else (this', [ValidateDirtyRangesCommand])
  end.

(** The category fields of [ValidationService]. *)
Record ServiceCategories := mkCategories {
  currentCategories : list ICategory;
  allCategories : list ICategory
}.

Definition getCurrentCategories (this : ServiceCategories) : list ICategory :=
  currentCategories this.

Definition addCategory (this : ServiceCategories) (categoryId : string)
    : ServiceCategories :=
  match find (fun c => String.eqb (cat_id c) categoryId) (allCategories this) with
  | None => this
  | Some category =>
      {| currentCategories := currentCategories this ++ [category];
         allCategories := allCategories this |}
  end.

Definition removeCategory (this : ServiceCategories) (categoryId : string)
    : ServiceCategories :=
  {| currentCategories :=
       filter (fun c => negb (String.eqb (cat_id c) categoryId))
              (currentCategories this);
     allCategories := allCategories this |}.

(** What happens to the service: the store announces new dirtied ranges
    (the constructor subscribes [scheduleValidation] to that event), or a
    timer set by [scheduleValidation] fires while the store holds
    [pluginState]. *)
Inductive ServiceEvent : Type :=
| NewDirtiedRanges
| TimerFires (pluginState : option (@IPluginState Mapping Node)).

Definition isSetTimeout (effect : @Effect Node) : bool :=
  match effect with
  | SetTimeout _ => true
  | _ => false
  end.

(** The service together with the number of its timers that are set and
    have not fired yet.  A timer can only fire when one is set. *)
Definition handleEvent (state : ValidationService * nat) (event : ServiceEvent)
    : ValidationService * nat :=
  let '(this, timers) := state in
  match event with
  | NewDirtiedRanges =>
      let '(this', effects) := scheduleValidation this in
      (this', (timers + List.length (filter isSetTimeout effects))%nat)
  | TimerFires pluginState =>
      match timers with
      | O => state
      | S timers' =>
          let '(this', effects) := requestValidation this pluginState in
          (this', (timers' + List.length (filter isSetTimeout effects))%nat)
      end
  end.

Definition handleEvents (events : list ServiceEvent)
    (state : ValidationService * nat) : ValidationService * nat :=
  fold_left handleEvent events state.

End Service.
End Service.

(** ** utils/decoration.ts *)

Module Decorations.

(** The decoration types.  In the source they are string constants used as
    an enumeration; [typeName] gives the strings. *)
Inductive DecorationType : Type :=
| DECORATION_MATCH
| DECORATION_MATCH_IS_CORRECT
| DECORATION_MATCH_IS_SELECTED
| DECORATION_MATCH_HEIGHT_MARKER
| DECORATION_DIRTY
| DECORATION_INFLIGHT.

Definition typeName (type : DecorationType) : string :=
  match type with
  | DECORATION_MATCH => "DECORATION_MATCH"
  | DECORATION_MATCH_IS_CORRECT => "DECORATION_MATCH_IS_CORRECT"
  | DECORATION_MATCH_IS_SELECTED => "DECORATION_MATCH_IS_HOVERING"
  | DECORATION_MATCH_HEIGHT_MARKER => "DECORATION_MATCH_HEIGHT_MARKER"
  | DECORATION_DIRTY => "DECORATION_DIRTY"
  | DECORATION_INFLIGHT => "DECORATION_INFLIGHT"
  end.

Definition typeEqb (a b : DecorationType) : bool :=
  String.eqb (typeName a) (typeName b).

Definition DecorationClassMap (type : DecorationType) : string :=
  match type with
  | DECORATION_DIRTY => "MatchDebugDirty"
  | DECORATION_INFLIGHT => "MatchDebugInflight"
  | DECORATION_MATCH => "MatchDecoration"
  | DECORATION_MATCH_HEIGHT_MARKER => "MatchDecoration__height-marker"
  | DECORATION_MATCH_IS_SELECTED => "MatchDecoration--is-selected"
  | DECORATION_MATCH_IS_CORRECT => "MatchDecoration--is-correct"
  end.

Definition DECORATION_ATTRIBUTE_ID : string := "data-match-id".
Definition DECORATION_ATTRIBUTE_HEIGHT_MARKER_ID : string :=
  "data-height-marker-id".
Definition DECORATION_ATTRIBUTE_IS_CORRECT_ID : string := "data-is-correct-id".

(** What the helpers read of an [IMatch]. *)
Record IMatch := mkMatch {
  match_from : Z;
  match_to : Z;
  matchId : string;
  category : ICategory;
  markAsCorrect : bool
}.

(** The spec object a decoration is created with. *)
Record DecorationSpec := mkSpec {
  spec_type : DecorationType;
  spec_id : option string;
  categoryId : option string;
  inclusiveStart : option bool;
  inclusiveEnd : option bool
}.

(** An element made with [document.createElement("span")]: its attributes
    and class name. *)
Record SpanElement := mkSpanElement {
  attributes : list (string * string);
  className : string
}.

(** A prosemirror-view [Decoration], as [Decoration.inline] and
    [Decoration.widget] build it; the attributes of an inline decoration are
    a list of name and value. *)
Inductive Decoration : Type :=
| inline (from to : Z) (attrs : list (string * string)) (spec : DecorationSpec)
| widget (pos : Z) (toDOM : SpanElement) (spec : DecorationSpec).

Definition decorationSpec (decoration : Decoration) : DecorationSpec :=
  match decoration with
  | inline _ _ _ spec => spec
  | widget _ _ spec => spec
  end.

Definition decorationFrom (decoration : Decoration) : Z :=
  match decoration with
  | inline from _ _ _ => from
  | widget pos _ _ => pos
  end.

Definition decorationTo (decoration : Decoration) : Z :=
  match decoration with
  | inline _ to _ _ => to
  | widget pos _ _ => pos
  end.

Definition createDebugDecorationFromRange (range : IRange) (dirty : bool)
    : Decoration :=
  let type := if dirty then DECORATION_DIRTY else DECORATION_INFLIGHT in
  inline (from range) (to range + 1)
         [("class"%string, DecorationClassMap type)]
         {| spec_type := type;
            spec_id := None;
            categoryId := None;
            inclusiveStart := None;
            inclusiveEnd := None |}.

(** Create a height marker element. *)
Definition createHeightMarkerElement (i : string) : SpanElement :=
  {| attributes := [(DECORATION_ATTRIBUTE_HEIGHT_MARKER_ID, i)];
     className := DecorationClassMap DECORATION_MATCH_HEIGHT_MARKER |}.

(** Create an 'isCorrect' element. *)
Definition createIsCorrectElement (i : string) : SpanElement :=
  {| attributes := [(DECORATION_ATTRIBUTE_IS_CORRECT_ID, i)];
     className := DecorationClassMap DECORATION_MATCH_IS_CORRECT |}.

(** Create decorations for the given match. *)
Definition createDecorationsForMatch (match_ : IMatch)
    (isSelected addHeightMarker : bool) : list Decoration :=
  let className :=
    if isSelected
    then (DecorationClassMap DECORATION_MATCH ++ " " ++
          DecorationClassMap DECORATION_MATCH_IS_SELECTED)%string
    else DecorationClassMap DECORATION_MATCH in
  let opacity := if isSelected then "30"%string else "07"%string in
  let style :=
    ("background-color: #" ++ colour (category match_) ++ opacity ++
     "; border-bottom: 2px solid #" ++ colour (category match_))%string in
  let decorations :=
    [inline (match_from match_) (match_to match_)
            [("class"%string, className);
             ("style"%string, style);
             (DECORATION_ATTRIBUTE_ID, matchId match_)]
            {| spec_type := DECORATION_MATCH;
               spec_id := Some (matchId match_);
               categoryId := Some (cat_id (category match_));
               inclusiveStart := Some false;
               inclusiveEnd := Some false |}] in
  let decorations :=
    if addHeightMarker
    then decorations ++
         [widget (match_from match_)
                 (createHeightMarkerElement (matchId match_))
                 {| spec_type := DECORATION_MATCH_HEIGHT_MARKER;
                    spec_id := Some (matchId match_);
                    categoryId := Some (cat_id (category match_));
                    inclusiveStart := None;
                    inclusiveEnd := None |}]
    else decorations in
  if markAsCorrect match_
  then decorations ++
       [widget (match_to match_)
               (createIsCorrectElement (matchId match_))
               {| spec_type := DECORATION_MATCH_IS_CORRECT;
                  spec_id := Some (matchId match_);
                  categoryId := Some (cat_id (category match_));
                  inclusiveStart := None;
                  inclusiveEnd := None |}]
  else decorations.

(** [flatten(matches.map(_ => createDecorationsForMatch(_)))], the optional
    arguments at their defaults. *)
Definition createDecorationsForMatches (matches : list IMatch)
    : list Decoration :=
  List.concat (map (fun m => createDecorationsForMatch m false true) matches).

(** A prosemirror-view [DecorationSet], as the helpers use it. *)
Class DecorationSetOps (DecorationSet Node : Type) := {
  find : DecorationSet -> option Z -> option Z -> (DecorationSpec -> bool) ->
         list Decoration;
  remove : DecorationSet -> list Decoration -> DecorationSet;
  add : DecorationSet -> Node -> list Decoration -> DecorationSet
}.

Section DecorationSets.

Context {DecorationSet Node : Type} `{DecorationSetOps DecorationSet Node}.

(** Remove decorations from the given ranges.  [flatten] of an array of
    arrays is their concatenation, and [.filter(_ => !!_)] keeps every
    array. *)
Definition removeDecorationsFromRanges (decorationSet : DecorationSet)
    (ranges : list IRange) (types : list DecorationType) : DecorationSet :=
  fold_left
    (fun acc range =>
       let predicate := fun spec : DecorationSpec =>
         existsb (typeEqb (spec_type spec)) types in
       let decorations :=
         find decorationSet (Some (from range)) (Some (to range)) predicate in
       if (List.length decorations =? 0)%nat then acc
       else
         let decorationsToRemove :=
           List.concat (map (fun decoration =>
                          find decorationSet
                               (Some (decorationFrom decoration))
                               (Some (decorationTo decoration)) predicate)
                       decorations) in
         remove acc decorationsToRemove)
    ranges decorationSet.

(** The default of the [types] argument. *)
Definition defaultTypes : list DecorationType :=
  [DECORATION_MATCH; DECORATION_MATCH_HEIGHT_MARKER].

(** Given the matches and the current decoration set, a decoration set
    containing the new matches too. *)
Definition getNewDecorationsForCurrentMatches (outputs : list IMatch)
    (decorationSet : DecorationSet) (doc : Node) : DecorationSet :=
  add decorationSet doc (createDecorationsForMatches outputs).

Definition findSingleDecoration (decorationSet : DecorationSet)
    (predicate : DecorationSpec -> bool) : option Decoration :=
  match find decorationSet None None predicate with
  | [] => None
  | decoration :: _ => Some decoration
  end.

End DecorationSets.

End Decorations.

(** ** Reachable states and state predicates *)

Section Predicates.

Context {Mapping Node : Type} `{PositionMapper Mapping} `{DocumentSource Node}.

(** The states the reducer can produce from an initial state: any
    transaction, with or without an action. *)
Inductive Reachable : @IPluginState Mapping Node -> Prop :=
| Reachable_initial doc throttleInMs maxThrottle :
    Reachable (createInitialState doc throttleInMs maxThrottle)
| Reachable_reduce tr state action :
    Reachable state -> Reachable (validationPluginReducer tr state action).

(** Strict intersection of two ranges, as a proposition. *)
Definition Overlaps {A B : Type} `{ExtendsIRange A} `{ExtendsIRange B}
    (a : A) (b : B) : Prop :=
  getFrom b < getTo a /\ getFrom a < getTo b.

(** A list of ranges is merged when its ranges ascend with a gap between
    any range and every later one. *)
Fixpoint Merged (ranges : list IRange) : Prop :=
  match ranges with
  | [] => True
  | r :: rest => (forall r', In r' rest -> to r < from r') /\ Merged rest
  end.

(** No current validation overlaps a dirtied range. *)
Definition ValidationsClearOfDirtied (s : @IPluginState Mapping Node) : Prop :=
  forall v d, In v (currentValidations s) -> In d (dirtiedRanges s) ->
              ~ Overlaps v d.

(** No two current validations overlap. *)
Definition ValidationsPairwiseDisjoint (s : @IPluginState Mapping Node) : Prop :=
  forall before v after w,
    currentValidations s = before ++ v :: after -> In w after ->
    ~ Overlaps v w.

(** The no-overlap invariant of the specification. *)
Definition NoOverlapInvariant (s : @IPluginState Mapping Node) : Prop :=
  ValidationsPairwiseDisjoint s /\ ValidationsClearOfDirtied s.

(** A list of ranges ascends by [from]. *)
Fixpoint FromAscending (ranges : list IRange) : Prop :=
  match ranges with
  | [] => True
  | r :: rest => (forall r', In r' rest -> from r <= from r') /\ FromAscending rest
  end.

(** What identifies an in-flight entry and what it was asked for. *)
Definition inFlightKey (entry : @IValidationInFlight Mapping)
    : string * IValidationInput :=
  (id entry, validationInput entry).

(** The laws of mapping composition: a new mapping relocates nothing, and
    an appended mapping relocates through the first, then through the
    second. *)
Definition MapperComposes : Prop :=
  (forall f t, mapFromTo (newMapping : Mapping) f t = (f, t)) /\
  (forall (a b : Mapping) f t,
     mapFromTo (appendMapping a b) f t
     = mapFromTo b (fst (mapFromTo a f t)) (snd (mapFromTo a f t))).

(** Relocating a pair through the mappings of a sequence of transactions,
    oldest first. *)
Definition mapFromToThrough (trs : list (@Transaction Mapping Node))
    (range : Z * Z) : Z * Z :=
  fold_left (fun r tr => mapFromTo (tr_mapping tr) (fst r) (snd r)) trs range.

(** The state after a sequence of transactions that carry no action. *)
Definition reduceAll (trs : list (@Transaction Mapping Node))
    (state : @IPluginState Mapping Node) : @IPluginState Mapping Node :=
  fold_left (fun s tr => validationPluginReducer tr s None) trs state.

(** What holds of the service and its timers at any time: at most one
    timer is set, one is set exactly when the service is pending, and the
    throttle duration is [throttle]. *)
Definition TimerInvariant (throttle : Z)
    (state : Service.ValidationService * nat) : Prop :=
  (snd state <= 1)%nat /\
  (Service.validationPending (fst state) = true <-> snd state = 1%nat) /\
  Service.currentThrottle (fst state) = throttle.

(** The entries a transition has appended to [validationsInFlight]. *)
Definition appendedInFlight (before after : @IPluginState Mapping Node)
    : list (@IValidationInFlight Mapping) :=
  skipn (List.length (validationsInFlight before)) (validationsInFlight after).

End Predicates.

(** ** A host to run the reducer on

    An instance of the two host interfaces.  The document is its flat text.
    A mapping is the list of step maps of the edits made, each step map a
    list of replaced spans [(start, oldSize, newSize)] in ascending order,
    as in prosemirror-transform. *)

Module Host.

Record ReplacedSpan := mkSpan { start : Z; oldSize : Z; newSize : Z }.

Definition StepMap : Type := list ReplacedSpan.

Definition Mapping : Type := list StepMap.

(** [StepMap.map(pos, assoc)]: [diff] is the size change of the spans
    already passed. *)
Fixpoint mapStep (spans : StepMap) (diff assoc pos : Z) : Z :=
  match spans with
  | [] => pos + diff
  | span :: rest =>
      if start span >? pos then pos + diff
      else
        let end_ := start span + oldSize span in
        if pos <=? end_ then
          let side :=
            if oldSize span =? 0 then assoc
            else if pos =? start span then -1
            else if pos =? end_ then 1
            else assoc in
          start span + diff + (if side <? 0 then 0 else newSize span)
        else mapStep rest (diff + (newSize span - oldSize span)) assoc pos
  end.

(** [Mapping.map(pos, assoc)]: through every step map in turn. *)
Definition mapPos (mapping : Mapping) (assoc pos : Z) : Z :=
  fold_left (fun p stepMap => mapStep stepMap 0 assoc p) mapping pos.

(** Modelled from the spec: the bias of the position mapper expands rather
    than shrinks on an edit at a boundary, so [from] leans left and [to]
    leans right. *)
#[export] Instance StepMapping : PositionMapper Mapping := {
  newMapping := [];
  appendMapping := fun a b => a ++ b;
  mapFromTo := fun mapping f t => (mapPos mapping (-1) f, mapPos mapping 1 t)
}.

Definition Node : Type := string.

#[export] Instance TextDocument : DocumentSource Node := {
  textBetween := fun doc f t =>
    substring (Z.to_nat f) (Z.to_nat (t - f)) doc;
  createValidationInputsForDocument := fun doc =>
    [mkInput 0 (Z.of_nat (String.length doc)) doc]
}.

Definition State : Type := @IPluginState Mapping Node.

(** A transaction that changes nothing, stamped [time]. *)
Definition tr0 (time : Z) : @Transaction Mapping Node :=
  {| tr_mapping := [];
     tr_doc := "The quick brown fox"%string;
     tr_time := time;
     tr_meta := None |}.

Definition initial : State :=
  createInitialState "The quick brown fox"%string 2000 8000.

Definition output (i : string) (f t : Z) : IValidationOutput :=
  {| out_id := i;
     out_from := f;
     out_to := t;
     out_inputString := ""%string;
     annotation := "annotation"%string;
     out_type := "issueType"%string;
     suggestions := [] |}.

(** The identity expand function, and the one that always asks for
    [ranges]. *)
Definition expandIdentity : @ExpandRanges Node := fun ranges _ => ranges.

Definition expandTo (ranges : list IRange) : @ExpandRanges Node :=
  fun _ _ => ranges.

(** One reducer step on an unchanged document, stamped [time]. *)
Definition step (time : Z) (action : @Action Node) (state : State) : State :=
  validationPluginReducer (tr0 time) state (Some action).

(** A request for [[5,10)] goes out at time 1; then [[6,7)] is dirtied. *)
Definition dirtiedAfterRequest : State :=
  step 2 (applyNewDirtiedRanges [mkRange 6 7])
    (step 1 (validationRequestForDirtyRanges (expandTo [mkRange 5 10])) initial).

Definition requestAt1 : @IValidationInFlight Mapping :=
  {| id := "1"%string;
     mapping := [];
     validationInput := mkInput 5 10 "uick "%string |}.

(** Two validations are current. *)
Definition twoValidations : State :=
  {| debug := false;
     initialThrottle := 2000;
     currentThrottle := 2000;
     maxThrottle := 8000;
     currentValidations := [output "m1" 2 4; output "m2" 12 14];
     dirtiedRanges := [];
     selectedValidation := None;
     hoverId := None;
     hoverInfo := None;
     trHistory := [];
     validationPending := false;
     validationsInFlight := [];
     error := None |}.

(** [[0,10)] has been dirtied in the initial state. *)
Definition dirtied0to10 : State :=
  step 1 (applyNewDirtiedRanges [mkRange 0 10]) initial.

(** One request, id [r1], is in flight for [[0,10)]. *)
Definition requestR1 : @IValidationInFlight Mapping :=
  {| id := "r1"%string;
     mapping := [];
     validationInput := mkInput 0 10 "The quick "%string |}.

Definition oneInFlight : State :=
  {| debug := false;
     initialThrottle := 2000;
     currentThrottle := 2000;
     maxThrottle := 8000;
     currentValidations := [];
     dirtiedRanges := [];
     selectedValidation := None;
     hoverId := None;
     hoverInfo := None;
     trHistory := [];
     validationPending := false;
     validationsInFlight := [requestR1];
     error := None |}.

(** One request transition at time 7 asks for [[0,5)] and [[10,15)]. *)
Definition twoRequested : State :=
  step 7 (validationRequestForDirtyRanges (expandTo [mkRange 0 5; mkRange 10 15]))
    initial.

(** The service reports that the second of them, [[10,15)], failed. *)
Definition secondFailed : IValidationError :=
  {| err_id := "7"%string;
     err_validationInput := mkInput 10 15 "brown"%string;
     message := "network error"%string |}.

(** Two requests for [[0,10)] go out, at times 1 and 2; the first succeeds
    with one match at [[2,4)]; the second fails. *)
Definition firstSucceeded : State :=
  step 3 (validationRequestSuccess
            (Some (mkResponse "1" [output "m1" 2 4])))
    (step 2 (validationRequestForDirtyRanges (expandTo [mkRange 0 10]))
       (step 1 (validationRequestForDirtyRanges (expandTo [mkRange 0 10]))
          initial)).

Definition secondFailedAfterSuccess : State :=
  step 4 (validationRequestError
            (mkError "2" (mkInput 0 10 "The quick ") "network error"))
    firstSucceeded.

(** One request for [[0,10)] succeeds with two matches that overlap. *)
Definition overlappingMatches : State :=
  step 2 (validationRequestSuccess
            (Some (mkResponse "1" [output "m1" 0 5; output "m2" 3 8])))
    (step 1 (validationRequestForDirtyRanges (expandTo [mkRange 0 10])) initial).

(** [[0,10)] is dirtied, then [[5,8)]. *)
Definition dirtiedTwice : State :=
  step 2 (applyNewDirtiedRanges [mkRange 5 8]) dirtied0to10.

(** The service, as constructed with the default throttle durations. *)
Definition service : Service.ValidationService :=
  Service.newValidationService 2000 16000.

(** An edit that inserts three characters at offset 2, and one that then
    deletes the four characters from offset 6. *)
Definition insertThreeAt2 : @Transaction Mapping Node :=
  {| tr_mapping := [[mkSpan 2 0 3]];
     tr_doc := "Th---e quick brown fox"%string;
     tr_time := 1;
     tr_meta := None |}.

Definition deleteFourAt6 : @Transaction Mapping Node :=
  {| tr_mapping := [[mkSpan 6 4 0]];
     tr_doc := "Th---eck brown fox"%string;
     tr_time := 2;
     tr_meta := None |}.

(** The spans a transaction has replaced, in the coordinates after it (a
    single step map is assumed). *)
Definition replacedRanges (tr : @Transaction Mapping Node) : list IRange :=
  match tr_mapping tr with
  | [spans] =>
      map (fun span => mkRange (start span) (start span + newSize span)) spans
  | _ => []
  end.

(** The transaction the plugin returns from [appendTransaction]: a fresh one
    on the same document, carrying the action. *)
Definition appended (time : Z) (action : @Action Node)
    : @Transaction Mapping Node :=
  {| tr_mapping := [];
     tr_doc := "Th---e quick brown fox"%string;
     tr_time := time;
     tr_meta := Some action |}.

Definition spelling : ICategory := mkCategory "spelling" "Spelling" "d90000".
Definition grammar : ICategory := mkCategory "grammar" "Grammar" "ffa500".

Definition categories : Service.ServiceCategories :=
  {| Service.currentCategories := [spelling];
     Service.allCategories := [spelling; grammar] |}.

Definition aMatch : Decorations.IMatch :=
  {| Decorations.match_from := 2;
     Decorations.match_to := 4;
     Decorations.matchId := "m1";
     Decorations.category := spelling;
     Decorations.markAsCorrect := true |}.

(** A decoration set as the list of its decorations; a decoration is found
    when its spec passes and it touches the span asked for, and two
    decorations are the same when they agree on position, type and id. *)
Definition touches (start_ end_ : option Z) (decoration : Decorations.Decoration)
    : bool :=
  match start_, end_ with
  | Some f, Some t =>
      (Decorations.decorationFrom decoration <=? t) &&
      (f <=? Decorations.decorationTo decoration)
  | _, _ => true
  end.

Definition sameDecoration (a b : Decorations.Decoration) : bool :=
  (Decorations.decorationFrom a =? Decorations.decorationFrom b) &&
  (Decorations.decorationTo a =? Decorations.decorationTo b) &&
  Decorations.typeEqb (Decorations.spec_type (Decorations.decorationSpec a))
                      (Decorations.spec_type (Decorations.decorationSpec b)) &&
  match Decorations.spec_id (Decorations.decorationSpec a),
        Decorations.spec_id (Decorations.decorationSpec b) with
  | Some i, Some j => String.eqb i j
  | None, None => true
  | _, _ => false
  end.

#[export] Instance ListDecorationSet
    : Decorations.DecorationSetOps (list Decorations.Decoration) Node := {
  Decorations.find := fun set start_ end_ predicate =>
    filter (fun d => predicate (Decorations.decorationSpec d) &&
                     touches start_ end_ d) set;
  Decorations.remove := fun set decorations =>
    filter (fun d => negb (existsb (sameDecoration d) decorations)) set;
  Decorations.add := fun set _ decorations => set ++ decorations
}.

End Host.

(** * Properties *)

(** ** Range helpers *)

Section RangeFacts.

Lemma findIndexFrom_lower_bound {A : Type} (p : A -> bool) xs i :
  0 <= i -> findIndexFrom p i xs = -1 \/ i <= findIndexFrom p i xs.
Proof.
  revert i; induction xs as [|x rest IH]; intros i Hi; simpl.
  - now left.
  - destruct (p x).
    + right; lia.
    + destruct (IH (i + 1)) as [E | L]; [lia | now left | right; lia].
Qed.

Lemma findIndexFrom_not_found {A : Type} (p : A -> bool) xs i :
  0 <= i ->
  findIndexFrom p i xs = -1 <-> (forall x, In x xs -> p x = false).
Proof.
  revert i; induction xs as [|x rest IH]; intros i Hi; simpl.
  - split; [intros _ x [] | reflexivity].
  - destruct (p x) eqn:Hp.
    + split.
      * lia.
      * intros Hall. rewrite (Hall x) in Hp by now left. discriminate.
    + rewrite IH by lia. split.
      * intros Hall y [<- | Hy]; auto.
      * intros Hall y Hy; apply Hall; now right.
Qed.

Lemma intersects_Overlaps {A B : Type} `{ExtendsIRange A} `{ExtendsIRange B}
    (a : A) (b : B) :
  intersects a b = true <-> Overlaps a b.
Proof.
  unfold intersects, Overlaps.
  rewrite andb_true_iff, Z.ltb_lt, Z.gtb_ltb, Z.ltb_lt. tauto.
Qed.

Lemma findOverlappingRangeIndex_not_found {A B : Type}
    `{ExtendsIRange A} `{ExtendsIRange B} (range : A) (ranges : list B) :
  findOverlappingRangeIndex range ranges = -1 <->
  (forall r, In r ranges -> ~ Overlaps range r).
Proof.
  unfold findOverlappingRangeIndex, findIndex.
  rewrite findIndexFrom_not_found by lia.
  split; intros Hall r Hr.
  - rewrite <- intersects_Overlaps, (Hall r Hr). discriminate.
  - specialize (Hall r Hr). rewrite <- intersects_Overlaps in Hall.
    now destruct (intersects range r).
Qed.

Lemma removeOverlappingRanges_In {A B : Type}
    `{ExtendsIRange A} `{ExtendsIRange B}
    (firstRanges : list A) (secondRanges : list B) (x : A) :
  In x (removeOverlappingRanges firstRanges secondRanges) <->
  In x firstRanges /\ (forall r, In r secondRanges -> ~ Overlaps x r).
Proof.
  unfold removeOverlappingRanges.
  rewrite filter_In, Z.eqb_eq, findOverlappingRangeIndex_not_found.
  reflexivity.
Qed.

(** *** [mergeRanges] returns a merged list *)

Lemma insertRange_In r sorted x :
  In x (insertRange r sorted) <-> x = r \/ In x sorted.
Proof.
  induction sorted as [|y rest IH]; simpl.
  - intuition.
  - destruct (rangeLeb r y); simpl; [intuition | rewrite IH; intuition].
Qed.

Lemma rangeLeb_false a b : rangeLeb a b = false -> from b <= from a.
Proof.
  unfold rangeLeb. intros E. apply orb_false_iff in E. destruct E as [E _].
  apply Z.ltb_ge in E. exact E.
Qed.

Lemma rangeLeb_true a b : rangeLeb a b = true -> from a <= from b.
Proof.
  unfold rangeLeb. intros E. apply orb_true_iff in E.
  destruct E as [E | E].
  - apply Z.ltb_lt in E. lia.
  - apply andb_true_iff in E. destruct E as [E _]. apply Z.eqb_eq in E. lia.
Qed.

Lemma insertRange_FromAscending r sorted :
  FromAscending sorted -> FromAscending (insertRange r sorted).
Proof.
  induction sorted as [|y rest IH]; simpl.
  - intros _. split; [intros r' [] | exact I].
  - intros [Hy Hrest]. destruct (rangeLeb r y) eqn:E; simpl.
    + split; [| split; assumption].
      apply rangeLeb_true in E.
      intros r' [<- | Hr']; [assumption | specialize (Hy r' Hr'); lia].
    + split; [| now apply IH].
      apply rangeLeb_false in E.
      intros r' Hr'. apply insertRange_In in Hr'.
      destruct Hr' as [-> | Hr']; [assumption | now apply Hy].
Qed.

Lemma sortRanges_FromAscending ranges : FromAscending (sortRanges ranges).
Proof.
  induction ranges as [|r rest IH]; simpl; [exact I|].
  now apply insertRange_FromAscending.
Qed.

Lemma collapseRanges_Merged rest : forall current,
  FromAscending (current :: rest) ->
  Merged (collapseRanges current rest) /\
  (forall x, In x (collapseRanges current rest) -> from current <= from x).
Proof.
  induction rest as [|next rest' IH]; intros current [Hcur Hrest]; simpl.
  - split; [split; [intros r' [] | exact I] |].
    intros x [<- | []]. lia.
  - destruct Hrest as [Hnext Hrest'].
    destruct (from next <=? to current) eqn:E.
    + destruct (IH (mkRange (from current) (Z.max (to current) (to next))))
        as [Hm Hfrom].
      { split; [| assumption]. simpl. intros r' Hr'. apply Hcur. now right. }
      split; [exact Hm | exact Hfrom].
    + apply Z.leb_gt in E.
      destruct (IH next) as [Hm Hfrom]; [split; assumption|].
      split.
      * split; [| exact Hm]. intros r' Hr'. specialize (Hfrom r' Hr'). lia.
      * intros x [<- | Hx]; [lia|].
        specialize (Hfrom x Hx). specialize (Hcur next (or_introl eq_refl)). lia.
Qed.

Lemma mergeRanges_Merged ranges : Merged (mergeRanges ranges).
Proof.
  unfold mergeRanges. pose proof (sortRanges_FromAscending ranges) as Hsorted.
  destruct (sortRanges ranges) as [|first rest]; [exact I|].
  now apply collapseRanges_Merged.
Qed.

End RangeFacts.

(** ** The reducer *)

Section ReducerFacts.

Context {Mapping Node : Type} `{PositionMapper Mapping} `{DocumentSource Node}.

Local Abbreviation State := (@IPluginState Mapping Node).
Local Abbreviation InFlight := (@IValidationInFlight Mapping).

(** The entry found by id splits the list in front of it, where no entry
    carries the id, and [withoutInFlight] removes it and nothing else. *)
Lemma withoutInFlight_found (inFlight : list InFlight) i v :
  find (fun v => String.eqb (id v) i) inFlight = Some v ->
  exists before after,
    inFlight = before ++ v :: after /\
    id v = i /\
    (forall x, In x before -> id x <> i) /\
    withoutInFlight inFlight i = before ++ after.
Proof.
  induction inFlight as [|x rest IH]; simpl; [discriminate|].
  destruct (String.eqb (id x) i) eqn:E.
  - intros [= <-]. exists [], rest. apply String.eqb_eq in E.
    split; [reflexivity | split; [assumption | split; [intros y [] | reflexivity]]].
  - intros Hfind. destruct (IH Hfind) as (before & after & -> & Hid & Hno & Hw).
    exists (x :: before), after. rewrite Hw.
    split; [reflexivity | split; [assumption | split; [| reflexivity]]].
    intros y [<- | Hy]; [now apply String.eqb_neq | now apply Hno].
Qed.

(** C1 (stale-result rejection).  On a success response for the id of an
    in-flight entry, an incoming output that, mapped through that entry's
    accumulated mapping, overlaps some range of the current dirtied ranges is
    not among the current validations of the resulting state. *)
Theorem stale_result_rejected
    (tr : Transaction) (s : State) (i : string)
    (outputs : list IValidationOutput) (entry : InFlight)
    (o : IValidationOutput) (d : IRange) :
  let s1 := mapThroughTransaction tr s in
  let s2 := validationPluginReducer tr s
              (Some (validationRequestSuccess (Some (mkResponse i outputs)))) in
  selectValidationInFlightById s1 i = Some entry ->
  In o outputs ->
  In d (dirtiedRanges s1) ->
  Overlaps (mapRange o (mapping entry)) d ->
  ~ In (mapRange o (mapping entry)) (currentValidations s2).
Proof.
  intros s1 s2 Hentry Ho Hd Hov Hin.
  subst s2. unfold validationPluginReducer in Hin. fold s1 in Hin.
  unfold handleValidationRequestSuccess in Hin. cbn [resp_id] in Hin.
  rewrite Hentry in Hin. cbn [currentValidations] in Hin.
  apply removeOverlappingRanges_In in Hin. destruct Hin as [_ Hclear].
  exact (Hclear d Hd Hov).
Qed.

(** C3 (dirty wins).  A RangesDirtied transition sets [validationPending],
    drops every current validation that overlaps one of the newly dirtied
    ranges, and keeps every current validation that overlaps none. *)
Theorem ranges_dirtied_evicts_overlapping
    (tr : Transaction) (s : State) (ranges : list IRange) :
  let s1 := mapThroughTransaction tr s in
  let s2 := validationPluginReducer tr s (Some (applyNewDirtiedRanges ranges)) in
  validationPending s2 = true /\
  (forall v r, In v (currentValidations s1) -> In r ranges -> Overlaps v r ->
               ~ In v (currentValidations s2)) /\
  (forall v, In v (currentValidations s1) ->
             (forall r, In r ranges -> ~ Overlaps v r) ->
             In v (currentValidations s2)).
Proof.
  intros s1 s2. subst s2. cbn [validationPluginReducer]. fold s1.
  unfold handleNewDirtyRanges. cbn [validationPending currentValidations].
  split; [reflexivity | split].
  - intros v r _ Hr Hov Hin. apply filter_In in Hin. destruct Hin as [_ Hidx].
    apply Z.eqb_eq in Hidx.
    rewrite findOverlappingRangeIndex_not_found in Hidx.
    exact (Hidx r Hr Hov).
  - intros v Hv Hclear. apply filter_In. split; [assumption|].
    apply Z.eqb_eq. now apply findOverlappingRangeIndex_not_found.
Qed.

(** C5 (request for dirty ranges).  With [s1] the state after the mandatory
    re-mapping step, the transition empties [dirtiedRanges], clears
    [validationPending], and extends [validationsInFlight] of [s1] with one
    entry per range that [expandRanges] returns for the dirtied ranges of
    [s1]: each entry has a new, empty mapping and an input holding the range
    and the document text of that range.  In particular, from dirtied ranges
    [[0,10)] and an identity expand function, exactly one entry is appended
    and its input range is [[0,10)]. *)
Theorem request_for_dirty_ranges_starts_requests
    (tr : Transaction) (s : State) (expandRanges : ExpandRanges) :
  let s1 := mapThroughTransaction tr s in
  let s2 := validationPluginReducer tr s
              (Some (validationRequestForDirtyRanges expandRanges)) in
  dirtiedRanges s2 = [] /\
  validationPending s2 = false /\
  validationsInFlight s2 =
    validationsInFlight s1 ++
    map (fun range =>
           {| id := toString (tr_time tr);
              mapping := newMapping;
              validationInput :=
                {| in_from := from range;
                   in_to := to range;
                   inputString :=
                     textBetween (tr_doc tr) (from range) (to range) |} |})
        (expandRanges (dirtiedRanges s1) (tr_doc tr)) /\
  (dirtiedRanges s1 = [mkRange 0 10] ->
   (forall ranges doc, expandRanges ranges doc = ranges) ->
   exists entry,
     validationsInFlight s2 = validationsInFlight s1 ++ [entry] /\
     validationInputToRange (validationInput entry) = mkRange 0 10 /\
     inputString (validationInput entry) = textBetween (tr_doc tr) 0 10 /\
     mapping entry = newMapping).
Proof.
  intros s1 s2. subst s2. cbn [validationPluginReducer]. fold s1.
  unfold handleValidationRequestForDirtyRanges, handleValidationRequestStart.
  cbn [dirtiedRanges validationPending validationsInFlight].
  rewrite map_map.
  split; [reflexivity | split; [reflexivity | split; [reflexivity|]]].
  intros Hdirty Hexpand. rewrite Hexpand, Hdirty. cbn [map from to].
  eexists. split; [reflexivity|].
  cbn [validationInput inputString mapping]. unfold validationInputToRange.
  cbn [in_from in_to]. repeat split.
Qed.

Lemma skipn_length_app {A : Type} (l l' : list A) :
  skipn (List.length l) (l ++ l') = l'.
Proof. induction l; simpl; auto. Qed.

(** Every entry a request transition appends carries the transaction's
    timestamp as its id. *)
Lemma request_start_ids (inputs : list IValidationInput)
    (tr : Transaction) (s1 : State) :
  Forall (fun entry => id entry = toString (tr_time tr))
         (appendedInFlight s1 (handleValidationRequestStart inputs tr s1)).
Proof.
  unfold appendedInFlight, handleValidationRequestStart.
  cbn [validationsInFlight]. rewrite skipn_length_app.
  apply Forall_forall. intros e He. apply in_map_iff in He.
  destruct He as (x & <- & _). reflexivity.
Qed.

(** C9 (success for an unknown id).  When no in-flight entry carries the
    response's id, the transition is the mandatory re-mapping step alone:
    the resulting state is the one the same transaction produces without an
    action. *)
Theorem success_for_unknown_id_is_noop
    (tr : Transaction) (s : State) (i : string)
    (outputs : list IValidationOutput) :
  selectValidationInFlightById (mapThroughTransaction tr s) i = None ->
  validationPluginReducer tr s
    (Some (validationRequestSuccess (Some (mkResponse i outputs))))
  = validationPluginReducer tr s None.
Proof.
  intros Hnone. cbn [validationPluginReducer].
  unfold handleValidationRequestSuccess. cbn [resp_id].
  now rewrite Hnone.
Qed.

(** A failed request, as the handler treats it.  With [s1] the state after
    the mandatory re-mapping step: the error field becomes the error's message.  When an
    in-flight entry carries the error's id, the first such entry is removed
    from [validationsInFlight], and the range of the validation input that
    the error carries, mapped through that entry's accumulated mapping, is
    merged into [dirtiedRanges]; this is the entry's own input range
    whenever the error carries the entry's input.  When no entry carries
    the id, [dirtiedRanges], [validationsInFlight] and the other fields are
    those of [s1]. *)
Theorem request_failed_redirties_error_input
    (tr : Transaction) (s : State) (validationError : IValidationError) :
  let s1 := mapThroughTransaction tr s in
  let s2 := validationPluginReducer tr s
              (Some (validationRequestError validationError)) in
  error s2 = Some (message validationError) /\
  (forall entry,
     selectValidationInFlightById s1 (err_id validationError) = Some entry ->
     (exists before after,
        validationsInFlight s1 = before ++ entry :: after /\
        (forall x, In x before -> id x <> err_id validationError) /\
        validationsInFlight s2 = before ++ after) /\
     dirtiedRanges s2 =
       mergeRanges
         (dirtiedRanges s1 ++
          [mapRange (validationInputToRange (err_validationInput validationError))
                    (mapping entry)]) /\
     (validationInputToRange (err_validationInput validationError)
      = validationInputToRange (validationInput entry) ->
      dirtiedRanges s2 =
        mergeRanges
          (dirtiedRanges s1 ++
           [mapRange (validationInputToRange (validationInput entry))
                     (mapping entry)]))) /\
  (selectValidationInFlightById s1 (err_id validationError) = None ->
   dirtiedRanges s2 = dirtiedRanges s1 /\
   validationsInFlight s2 = validationsInFlight s1 /\
   currentValidations s2 = currentValidations s1 /\
   validationPending s2 = validationPending s1).
Proof.
  intros s1 s2. subst s2. cbn [validationPluginReducer]. fold s1.
  unfold handleValidationRequestError.
  cbn [error dirtiedRanges validationsInFlight currentValidations
       validationPending].
  split; [reflexivity | split].
  - intros entry Hentry. rewrite Hentry. cbn [mapRanges map List.length].
    assert (Hdirty :
      (if 0 <? Z.of_nat 1
       then mergeRanges
              (dirtiedRanges s1 ++
               [mapRange
                  (validationInputToRange (err_validationInput validationError))
                  (mapping entry)])
       else dirtiedRanges s1)
      = mergeRanges
          (dirtiedRanges s1 ++
           [mapRange
              (validationInputToRange (err_validationInput validationError))
              (mapping entry)])) by reflexivity.
    split; [| split].
    + unfold selectValidationInFlightById in Hentry.
      destruct (withoutInFlight_found _ _ _ Hentry)
        as (before & after & Hsplit & _ & Hno & Hw).
      exists before, after. rewrite Hw. auto.
    + exact Hdirty.
    + intros <-. exact Hdirty.
  - intros Hnone. rewrite Hnone. cbn [List.length]. auto.
Qed.

(** No overlap between validations and dirtied ranges, per transition.
    With [s1] the state after the mandatory re-mapping step:
    a success response for an in-flight id, a request for dirty ranges and
    a request for the whole document each produce a state in which no
    current validation overlaps a dirtied range; a RangesDirtied transition
    leaves no current validation overlapping a newly dirtied range; and
    every action other than a RequestFailed that finds its in-flight entry
    keeps the property when [s1] has it. *)
Theorem validations_clear_of_dirtied_per_transition
    (tr : Transaction) (s : State) :
  let s1 := mapThroughTransaction tr s in
  (forall response entry,
     selectValidationInFlightById s1 (resp_id response) = Some entry ->
     ValidationsClearOfDirtied
       (validationPluginReducer tr s
          (Some (validationRequestSuccess (Some response))))) /\
  (forall expandRanges,
     ValidationsClearOfDirtied
       (validationPluginReducer tr s
          (Some (validationRequestForDirtyRanges expandRanges)))) /\
  ValidationsClearOfDirtied
    (validationPluginReducer tr s (Some validationRequestForDocument)) /\
  (forall ranges v r,
     In v (currentValidations
             (validationPluginReducer tr s (Some (applyNewDirtiedRanges ranges)))) ->
     In r ranges -> ~ Overlaps v r) /\
  (forall action,
     (forall validationError,
        action = validationRequestError validationError ->
        selectValidationInFlightById s1 (err_id validationError) = None) ->
     ValidationsClearOfDirtied s1 ->
     ValidationsClearOfDirtied (validationPluginReducer tr s (Some action))).
Proof.
  intros s1.
  assert (Hsuccess : forall response entry,
     selectValidationInFlightById s1 (resp_id response) = Some entry ->
     ValidationsClearOfDirtied
       (validationPluginReducer tr s
          (Some (validationRequestSuccess (Some response))))).
  { intros response entry Hentry v d.
    cbn [validationPluginReducer]. fold s1.
    unfold handleValidationRequestSuccess. rewrite Hentry.
    cbn [currentValidations dirtiedRanges]. intros Hv Hd.
    apply removeOverlappingRanges_In in Hv. destruct Hv as [_ Hclear].
    now apply Hclear. }
  assert (Hdirtied : forall ranges v r,
     In v (currentValidations
             (validationPluginReducer tr s (Some (applyNewDirtiedRanges ranges)))) ->
     In r ranges -> ~ Overlaps v r).
  { intros ranges v r. cbn [validationPluginReducer]. fold s1.
    unfold handleNewDirtyRanges. cbn [currentValidations]. intros Hv Hr.
    apply filter_In in Hv. destruct Hv as [_ Hidx]. apply Z.eqb_eq in Hidx.
    rewrite findOverlappingRangeIndex_not_found in Hidx. now apply Hidx. }
  split; [exact Hsuccess | split; [| split; [| split; [exact Hdirtied |]]]].
  - intros expandRanges v d _ [].
  - intros v d _ [].
  - intros action Herror Hclear.
    destruct action as [expandRanges | | response | validationError
                       | hoverId' hoverInfo' | ranges | validationId | debug'].
    + intros v d _ [].
    + intros v d _ [].
    + destruct response as [response|]; [| exact Hclear].
      destruct (selectValidationInFlightById s1 (resp_id response))
        as [entry|] eqn:Hentry.
      * exact (Hsuccess response entry Hentry).
      * cbn [validationPluginReducer]. fold s1.
        unfold handleValidationRequestSuccess. rewrite Hentry. exact Hclear.
    + specialize (Herror validationError eq_refl).
      intros v d. cbn [validationPluginReducer]. fold s1.
      unfold handleValidationRequestError. rewrite Herror.
      cbn [currentValidations dirtiedRanges List.length]. apply Hclear.
    + exact Hclear.
    + intros v d Hv Hd.
      assert (Hv1 : In v (currentValidations s1)).
      { revert Hv. cbn [validationPluginReducer]. fold s1.
        unfold handleNewDirtyRanges. cbn [currentValidations].
        intros Hv. apply filter_In in Hv. tauto. }
      revert Hd. cbn [validationPluginReducer]. fold s1.
      unfold handleNewDirtyRanges. cbn [dirtiedRanges]. intros Hd.
      apply in_app_or in Hd. destruct Hd as [Hd | Hd].
      * now apply Hclear.
      * exact (Hdirtied ranges v d Hv Hd).
    + exact Hclear.
    + exact Hclear.
Qed.

(** Every transition other than RangesDirtied leaves the dirtied ranges
    merged: the re-mapping step merges them, and so does the failure
    path. *)
Lemma other_transitions_keep_dirtied_merged
    (tr : Transaction) (s : State) (action : option Action) :
  (forall ranges, action <> Some (applyNewDirtiedRanges ranges)) ->
  Merged (dirtiedRanges (validationPluginReducer tr s action)).
Proof.
  intros Hother.
  assert (Hmapped : Merged (dirtiedRanges (mapThroughTransaction tr s)))
    by apply mergeRanges_Merged.
  destruct action as [action|]; [| exact Hmapped].
  destruct action as [expandRanges | | response | validationError
                     | hoverId' hoverInfo' | ranges | validationId | debug'];
    try exact Hmapped; try exact I.
  - cbn [validationPluginReducer]. unfold handleValidationRequestSuccess.
    destruct response as [response|]; [| exact Hmapped].
    destruct (selectValidationInFlightById _ _); exact Hmapped.
  - cbn [validationPluginReducer]. unfold handleValidationRequestError.
    cbn [dirtiedRanges].
    destruct (0 <? Z.of_nat _); [apply mergeRanges_Merged | exact Hmapped].
  - now elim (Hother ranges).
Qed.

End ReducerFacts.

(** ** Scheduling *)

Section SchedulingFacts.

Context {Mapping Node : Type} `{PositionMapper Mapping} `{DocumentSource Node}.

Local Abbreviation State := (@IPluginState Mapping Node).

(** The service defers while in flight.  When the service's timer fires
    ([requestValidation]) while the plugin state has at least one validation
    in flight, the only thing done is setting a new timer for the current
    throttle duration: the command that dispatches the request for dirty
    ranges is not called, and nothing is dispatched. *)
Theorem fire_while_in_flight_defers
    (this : Service.ValidationService) (pluginState : State) :
  validationsInFlight pluginState <> [] ->
  Service.requestValidation this (Some pluginState)
  = ({| Service.currentThrottle := Service.currentThrottle this;
        Service.initialThrottle := Service.initialThrottle this;
        Service.maxThrottle := Service.maxThrottle this;
        Service.validationPending := true |},
     [SetTimeout (Service.currentThrottle this)]) /\
  ~ In ValidateDirtyRangesCommand
       (snd (Service.requestValidation this (Some pluginState))) /\
  (forall action,
     ~ In (Dispatch action)
          (snd (Service.requestValidation this (Some pluginState)))).
Proof.
  intros Hinflight.
  assert (E : Service.requestValidation this (Some pluginState)
    = ({| Service.currentThrottle := Service.currentThrottle this;
          Service.initialThrottle := Service.initialThrottle this;
          Service.maxThrottle := Service.maxThrottle this;
          Service.validationPending := true |},
       [SetTimeout (Service.currentThrottle this)])).
  { unfold Service.requestValidation, Service.selectValidationsInFlight.
    destruct (validationsInFlight pluginState) as [|v rest];
      [contradiction|].
    reflexivity. }
  rewrite E. split; [reflexivity | split].
  - intros [Habs | []]. discriminate Habs.
  - intros action [Habs | []]. discriminate Habs.
Qed.

(** With no validation in flight the firing calls the command instead. *)
Lemma fire_when_idle_requests
    (this : Service.ValidationService) (pluginState : State) :
  validationsInFlight pluginState = [] ->
  snd (Service.requestValidation this (Some pluginState))
  = [ValidateDirtyRangesCommand].
Proof.
  intros Hidle. unfold Service.requestValidation,
    Service.selectValidationsInFlight.
  now rewrite Hidle.
Qed.

(** The plugin's own timer never defers: the property its guard reads is
    never there, so every firing dispatches the request for dirty ranges,
    whatever is in flight. *)
Lemma plugin_fire_always_dispatches
    (expandRanges : ExpandRanges) (pluginState : State) :
  Plugin.requestValidation expandRanges pluginState
  = [Dispatch (validationRequestForDirtyRanges expandRanges)].
Proof. reflexivity. Qed.

(** No action touches the transaction history. *)
Lemma reducer_trHistory (tr : Transaction) (s : State) (action : option Action) :
  trHistory (validationPluginReducer tr s action) = trHistory s.
Proof.
  destruct action as [action|]; [| reflexivity].
  destruct action as [expandRanges | | response | validationError
                     | hoverId' hoverInfo' | ranges | validationId | debug'];
    try reflexivity.
  cbn [validationPluginReducer]. unfold handleValidationRequestSuccess.
  destruct response as [response|]; [| reflexivity].
  now destruct (selectValidationInFlightById _ _).
Qed.

Lemma apply_trHistory (tr : Transaction) (s : State) :
  trHistory (Plugin.apply tr s)
  = if Z.of_nat (List.length (trHistory s)) >? 25
    then tl (trHistory s) ++ [tr]
    else trHistory s ++ [tr].
Proof. unfold Plugin.apply. now rewrite reducer_trHistory. Qed.

Lemma applyAll_trHistory_bounded (trs : list Transaction) (s : State) :
  (List.length (trHistory s) <= 26)%nat ->
  (List.length (trHistory (Plugin.applyAll trs s)) <= 26)%nat.
Proof.
  revert s. induction trs as [|tr trs IH]; intros s Hs; [exact Hs|].
  unfold Plugin.applyAll. cbn [fold_left]. apply IH.
  rewrite apply_trHistory.
  destruct (Z.of_nat (List.length (trHistory s)) >? 25) eqn:E.
  - rewrite length_app. cbn [List.length].
    destruct (trHistory s) as [|t0 rest]; cbn [tl List.length] in *; lia.
  - rewrite length_app. cbn [List.length].
    rewrite Z.gtb_ltb in E. apply Z.ltb_ge in E. lia.
Qed.

(** C10 (bounded transaction history).  Whatever transactions the plugin
    applies from its initial state, [trHistory] holds at most 26 of them;
    and once it holds more than 25, applying a transaction drops the oldest
    one and appends the new one. *)
Theorem trHistory_bounded
    (doc : Node) (throttleInMs maxThrottle : Z) (trs : list Transaction) :
  (List.length
     (trHistory
        (Plugin.applyAll trs (createInitialState doc throttleInMs maxThrottle)))
   <= 26)%nat /\
  (forall (s : State) (tr : Transaction),
     (25 < List.length (trHistory s))%nat ->
     trHistory (Plugin.apply tr s) = tl (trHistory s) ++ [tr]).
Proof.
  split.
  - apply applyAll_trHistory_bounded. cbn [createInitialState trHistory List.length].
    lia.
  - intros s tr Hlen. rewrite apply_trHistory.
    destruct (Z.of_nat (List.length (trHistory s)) >? 25) eqn:E; [reflexivity|].
    rewrite Z.gtb_ltb in E. apply Z.ltb_ge in E. lia.
Qed.

End SchedulingFacts.

(** ** More on the reducer *)

Section ReducerFrame.

Context {Mapping Node : Type} `{PositionMapper Mapping} `{DocumentSource Node}.

Local Abbreviation State := (@IPluginState Mapping Node).
Local Abbreviation InFlight := (@IValidationInFlight Mapping).

Local Ltac each_action action :=
  destruct action as [[expandRanges | | [response|] | validationError
                      | hoverId' hoverInfo' | ranges | validationId | debug']|];
  cbn [validationPluginReducer];
  try match goal with
      | |- context [handleValidationRequestSuccess _ ?s (Some ?r)] =>
          unfold handleValidationRequestSuccess;
          destruct (selectValidationInFlightById s (resp_id r))
      end.

Lemma reducer_throttles (tr : Transaction) (s : State) (action : option Action) :
  currentThrottle (validationPluginReducer tr s action) = currentThrottle s /\
  initialThrottle (validationPluginReducer tr s action) = initialThrottle s /\
  maxThrottle (validationPluginReducer tr s action) = maxThrottle s.
Proof. each_action action; repeat split. Qed.

(** X1.  The reducer never backs off: in every reachable state the current
    throttle is still the initial throttle, and no transition, a failed
    request included, changes the current or the maximum throttle. *)
Theorem throttle_never_backs_off (s : State) :
  Reachable s ->
  currentThrottle s = initialThrottle s /\
  (forall tr action,
     currentThrottle (validationPluginReducer tr s action) = currentThrottle s /\
     maxThrottle (validationPluginReducer tr s action) = maxThrottle s).
Proof.
  intros Hr. split.
  - induction Hr as [doc throttleInMs maxT | tr s action Hr IH].
    + reflexivity.
    + destruct (reducer_throttles tr s action) as (Hc & Hi & _). congruence.
  - intros tr action. destruct (reducer_throttles tr s action) as (Hc & _ & Hm).
    now split.
Qed.

(** X2.  The error field is written by a failed request only, which stores
    its message; every other transition, a success included, leaves it as
    it is.  So an error, once recorded, is never cleared. *)
Theorem error_persists (tr : Transaction) (s : State) (action : option Action) :
  error (validationPluginReducer tr s action)
  = match action with
    | Some (validationRequestError validationError) =>
        Some (message validationError)
    | _ => error s
    end /\
  (error s <> None -> error (validationPluginReducer tr s action) <> None).
Proof.
  assert (E : error (validationPluginReducer tr s action)
    = match action with
      | Some (validationRequestError validationError) =>
          Some (message validationError)
      | _ => error s
      end) by (each_action action; reflexivity).
  split; [exact E|]. rewrite E. intros Hs.
  destruct action as [[| | | validationError | | | |]|]; try exact Hs.
  discriminate.
Qed.

(** X3.  [validationPending] is set by a RangesDirtied transition, cleared
    by the two request transitions, and left alone by everything else: a
    failed request that puts its range back among the dirtied ranges does
    not mark a validation as pending. *)
Theorem validationPending_written_by
    (tr : Transaction) (s : State) (action : option Action) :
  validationPending (validationPluginReducer tr s action)
  = match action with
    | Some (applyNewDirtiedRanges _) => true
    | Some (validationRequestForDirtyRanges _) => false
    | Some validationRequestForDocument => false
    | _ => validationPending s
    end.
Proof. each_action action; reflexivity. Qed.

(** X4.  A success response for the id of an in-flight entry takes exactly
    that entry, the first one carrying the id, out of [validationsInFlight];
    all other entries stay, in their order, and the dirtied ranges, the
    pending flag and the error are those of the re-mapped state. *)
Theorem success_resolves_one_entry
    (tr : Transaction) (s : State) (response : IValidationResponse)
    (entry : InFlight) :
  let s1 := mapThroughTransaction tr s in
  let s2 := validationPluginReducer tr s
              (Some (validationRequestSuccess (Some response))) in
  selectValidationInFlightById s1 (resp_id response) = Some entry ->
  (exists before after,
     validationsInFlight s1 = before ++ entry :: after /\
     (forall x, In x before -> id x <> resp_id response) /\
     validationsInFlight s2 = before ++ after) /\
  dirtiedRanges s2 = dirtiedRanges s1 /\
  validationPending s2 = validationPending s1 /\
  error s2 = error s1.
Proof.
  intros s1 s2 Hentry. subst s2. cbn [validationPluginReducer]. fold s1.
  unfold handleValidationRequestSuccess. rewrite Hentry.
  cbn [validationsInFlight dirtiedRanges validationPending error].
  split; [| repeat split].
  unfold selectValidationInFlightById in Hentry.
  destruct (withoutInFlight_found _ _ _ Hentry)
    as (before & after & Hsplit & _ & Hno & Hw).
  exists before, after. rewrite Hw. auto.
Qed.

Lemma mapThroughTransaction_keys (tr : Transaction) (s : State) :
  map inFlightKey (validationsInFlight (mapThroughTransaction tr s))
  = map inFlightKey (validationsInFlight s).
Proof.
  cbn [mapThroughTransaction validationsInFlight]. rewrite map_map.
  apply map_ext. reflexivity.
Qed.

(** X5.  Only a response takes a request out of flight.  Under any
    transaction whose action is neither a success nor an error (no action
    included), every in-flight entry stays, in place, with the id and the
    validation input it was created with; entries are only added behind
    them. *)
Theorem in_flight_kept_until_resolved
    (tr : Transaction) (s : State) (action : option Action) :
  (forall response, action <> Some (validationRequestSuccess response)) ->
  (forall validationError,
     action <> Some (validationRequestError validationError)) ->
  exists added : list InFlight,
    map inFlightKey (validationsInFlight (validationPluginReducer tr s action))
    = map inFlightKey (validationsInFlight s) ++ map inFlightKey added.
Proof.
  intros Hsuccess Herror.
  destruct action as [[expandRanges | | response | validationError
                      | hoverId' hoverInfo' | ranges | validationId | debug']|];
    cbn [validationPluginReducer];
    try (exists []; cbn [map]; rewrite app_nil_r;
         apply mapThroughTransaction_keys).
  - unfold handleValidationRequestForDirtyRanges, handleValidationRequestStart.
    cbn [validationsInFlight]. eexists. rewrite map_app.
    f_equal. apply (mapThroughTransaction_keys tr s).
  - unfold handleValidationRequestForDocument, handleValidationRequestStart.
    cbn [validationsInFlight]. eexists. rewrite map_app.
    f_equal. apply (mapThroughTransaction_keys tr s).
  - now elim (Hsuccess response).
  - now elim (Herror validationError).
Qed.

Lemma Forall2_compose {A : Type} (R1 R2 R3 : A -> A -> Prop) l1 l2 l3 :
  Forall2 R1 l1 l2 -> Forall2 R2 l2 l3 ->
  (forall a b c, R1 a b -> R2 b c -> R3 a c) ->
  Forall2 R3 l1 l3.
Proof.
  intros H12. revert l3. induction H12 as [|a b l1 l2 Hab H12 IH];
    intros l3 H23 Hcomp; inversion H23; subst; constructor; eauto.
Qed.

Lemma mapThroughTransaction_mapping (tr : Transaction) (s : State) :
  MapperComposes ->
  Forall2 (fun entry entry' =>
             inFlightKey entry' = inFlightKey entry /\
             forall f t,
               mapFromTo (mapping entry') f t
               = mapFromTo (tr_mapping tr)
                           (fst (mapFromTo (mapping entry) f t))
                           (snd (mapFromTo (mapping entry) f t)))
          (validationsInFlight s)
          (validationsInFlight (mapThroughTransaction tr s)).
Proof.
  intros [Hnew Happend]. cbn [mapThroughTransaction validationsInFlight].
  induction (validationsInFlight s) as [|entry rest IH]; cbn [map];
    constructor; [| exact IH].
  split; [reflexivity|]. intros f t. cbn [mapping].
  rewrite Happend, Happend, Hnew. reflexivity.
Qed.

(** X6.  The mapping of an in-flight entry accumulates the edits in their
    order.  When mappings compose, then after any sequence of transactions
    without action every entry is still there with its id and input, and
    relocating a pair through its mapping is relocating it through the
    mapping it had before and then through each transaction's mapping in
    turn. *)
Theorem in_flight_mapping_accumulates
    (trs : list Transaction) (s : State) :
  MapperComposes ->
  Forall2 (fun entry entry' =>
             inFlightKey entry' = inFlightKey entry /\
             forall f t,
               mapFromTo (mapping entry') f t
               = mapFromToThrough trs (mapFromTo (mapping entry) f t))
          (validationsInFlight s)
          (validationsInFlight (reduceAll trs s)).
Proof.
  intros Hlaws. revert s. induction trs as [|tr trs IH]; intros s.
  - cbn. induction (validationsInFlight s); constructor; auto.
  - change (reduceAll (tr :: trs) s)
      with (reduceAll trs (validationPluginReducer tr s None)).
    apply (Forall2_compose _ _ _ _ _ _
             (mapThroughTransaction_mapping tr s Hlaws)
             (IH (validationPluginReducer tr s None))).
    intros entry entry1 entry2 [Hk1 Hm1] [Hk2 Hm2].
    split; [congruence|]. intros f t. rewrite Hm2, Hm1. reflexivity.
Qed.

(** X7.  A request for the whole document discards whatever ranges were
    dirtied, clears the pending flag, and puts one entry in flight per input
    made for the document, behind the entries already there; the current
    validations stay as re-mapped while the request is out. *)
Theorem whole_document_request (tr : Transaction) (s : State) :
  let s1 := mapThroughTransaction tr s in
  let s2 := validationPluginReducer tr s (Some validationRequestForDocument) in
  dirtiedRanges s2 = [] /\
  validationPending s2 = false /\
  map inFlightKey (appendedInFlight s1 s2)
  = map (fun input => (toString (tr_time tr), input))
        (createValidationInputsForDocument (tr_doc tr)) /\
  firstn (List.length (validationsInFlight s1)) (validationsInFlight s2)
  = validationsInFlight s1 /\
  currentValidations s2 = currentValidations s1.
Proof.
  intros s1 s2. subst s2. cbn [validationPluginReducer]. fold s1.
  unfold handleValidationRequestForDocument, handleValidationRequestStart,
    appendedInFlight.
  cbn [dirtiedRanges validationPending validationsInFlight currentValidations].
  rewrite skipn_length_app, map_map.
  split; [reflexivity | split; [reflexivity | split; [reflexivity | split]]].
  - rewrite firstn_app, Nat.sub_diag, firstn_all. cbn [firstn].
    apply app_nil_r.
  - reflexivity.
Qed.

(** X22.  Displayed results are only taken away by dirtying, and only
    replaced by a success response: under any other transaction, a failed
    request and the two requests included, the current validations are
    those of the re-mapped state. *)
Theorem validations_kept_by_other_actions
    (tr : Transaction) (s : State) (action : option Action) :
  (forall ranges, action <> Some (applyNewDirtiedRanges ranges)) ->
  (forall response, action <> Some (validationRequestSuccess response)) ->
  currentValidations (validationPluginReducer tr s action)
  = currentValidations (mapThroughTransaction tr s).
Proof.
  intros Hdirty Hsuccess.
  destruct action as [[expandRanges | | response | validationError
                      | hoverId' hoverInfo' | ranges | validationId | debug']|];
    try reflexivity.
  - now elim (Hsuccess response).
  - now elim (Hdirty ranges).
Qed.

(** X23.  The selection and the hover id are written by their own actions
    only, and with whatever id they are given: no other transition clears
    or changes them, so they keep an id whose validation has been
    evicted. *)
Theorem ui_pointers_written_by
    (tr : Transaction) (s : State) (action : option Action) :
  selectedValidation (validationPluginReducer tr s action)
  = match action with
    | Some (selectValidation validationId) => Some validationId
    | _ => selectedValidation s
    end /\
  hoverId (validationPluginReducer tr s action)
  = match action with
    | Some (newHoverIdReceived incoming _) => incoming
    | _ => hoverId s
    end.
Proof. each_action action; split; reflexivity. Qed.

Lemma find_by_distinct_id (inFlight : list InFlight) (entry : InFlight) :
  NoDup (map id inFlight) ->
  In entry inFlight ->
  find (fun v => String.eqb (id v) (id entry)) inFlight = Some entry.
Proof.
  induction inFlight as [|x rest IH]; intros Hnodup Hin; [contradiction|].
  cbn [map] in Hnodup. inversion Hnodup as [|? ? Hfresh Hrest]; subst.
  cbn [find]. destruct Hin as [-> | Hin].
  - now rewrite String.eqb_refl.
  - destruct (String.eqb (id x) (id entry)) eqn:E; [| now apply IH].
    apply String.eqb_eq in E. elim Hfresh. rewrite E. now apply in_map.
Qed.

(** With distinct ids in flight, a failure reported for an in-flight entry
    (its id, its input) finds that entry, removes it, and merges that
    entry's own input range, mapped through its accumulated mapping, into
    the dirtied ranges. *)
Lemma request_failed_with_distinct_ids
    (tr : Transaction) (s : State) (validationError : IValidationError)
    (entry : InFlight) :
  let s1 := mapThroughTransaction tr s in
  let s2 := validationPluginReducer tr s
              (Some (validationRequestError validationError)) in
  NoDup (map id (validationsInFlight s1)) ->
  In entry (validationsInFlight s1) ->
  err_id validationError = id entry ->
  err_validationInput validationError = validationInput entry ->
  selectValidationInFlightById s1 (err_id validationError) = Some entry /\
  (exists before after,
     validationsInFlight s1 = before ++ entry :: after /\
     validationsInFlight s2 = before ++ after) /\
  dirtiedRanges s2 =
    mergeRanges
      (dirtiedRanges s1 ++
       [mapRange (validationInputToRange (validationInput entry))
                 (mapping entry)]) /\
  error s2 = Some (message validationError).
Proof.
  intros s1 s2 Hnodup Hin Hid Hinput.
  assert (Hfound :
    selectValidationInFlightById s1 (err_id validationError) = Some entry).
  { unfold selectValidationInFlightById. rewrite Hid.
    now apply find_by_distinct_id. }
  destruct (request_failed_redirties_error_input tr s validationError)
    as (Herror & Hentry & _).
  destruct (Hentry entry Hfound)
    as ((before & after & Hsplit & _ & Hrest) & _ & Hdirty).
  split; [exact Hfound | split; [| split]].
  - exists before, after. now split.
  - apply Hdirty. now rewrite Hinput.
  - exact Herror.
Qed.

Lemma filter_split {A : Type} (p : A -> bool) (l before after : list A) (v : A) :
  filter p l = before ++ v :: after ->
  exists before' after',
    l = before' ++ v :: after' /\ (forall w, In w after -> In w after').
Proof.
  revert before. induction l as [|x rest IH]; intros before Hsplit.
  - destruct before; discriminate.
  - cbn [filter] in Hsplit. destruct (p x).
    + destruct before as [|b before]; cbn [app] in Hsplit;
        injection Hsplit as -> Hrest.
      * exists [], rest. split; [reflexivity|].
        intros w Hw. rewrite <- Hrest in Hw. apply filter_In in Hw. tauto.
      * destruct (IH before Hrest) as (before' & after' & -> & Hafter).
        exists (b :: before'), after'. now split.
    + destruct (IH before Hsplit) as (before' & after' & -> & Hafter).
      exists (x :: before'), after'. now split.
Qed.

(** From the re-mapped state, every action other than a success response
    that finds its in-flight entry keeps the current validations pairwise
    disjoint. *)
Lemma pairwise_disjoint_kept_by_other_actions
    (tr : Transaction) (s : State) (action : option Action) :
  (forall response,
     action = Some (validationRequestSuccess (Some response)) ->
     selectValidationInFlightById (mapThroughTransaction tr s)
                                  (resp_id response) = None) ->
  ValidationsPairwiseDisjoint (mapThroughTransaction tr s) ->
  ValidationsPairwiseDisjoint (validationPluginReducer tr s action).
Proof.
  intros Hnofound Hdisjoint.
  destruct action as [[expandRanges | | [response|] | validationError
                      | hoverId' hoverInfo' | ranges | validationId | debug']|];
    try exact Hdisjoint.
  - cbn [validationPluginReducer]. unfold handleValidationRequestSuccess.
    rewrite (Hnofound response eq_refl). exact Hdisjoint.
  - intros before v after w Hsplit Hw.
    cbn [validationPluginReducer handleNewDirtyRanges currentValidations]
      in Hsplit.
    destruct (filter_split _ _ _ _ _ Hsplit)
      as (before' & after' & Hsplit' & Hafter).
    exact (Hdisjoint before' v after' w Hsplit' (Hafter w Hw)).
Qed.

End ReducerFrame.

(** ** More on the plugin *)

Section PluginFacts.

Context {Mapping Node : Type} `{PositionMapper Mapping} `{DocumentSource Node}.

Local Abbreviation State := (@IPluginState Mapping Node).

Variable getReplaceStepRangesFromTransaction :
  @Transaction Mapping Node -> list IRange.

Local Abbreviation appendTransaction :=
  (Plugin.appendTransaction getReplaceStepRangesFromTransaction).

Lemma applyAll_trHistory (trs : list Transaction) (s : State) :
  (List.length (trHistory s) <= 26)%nat ->
  trHistory (Plugin.applyAll trs s)
  = skipn (List.length (trHistory s ++ trs) - 26) (trHistory s ++ trs).
Proof.
  revert s. induction trs as [|tr trs IH]; intros s Hs.
  - cbn [Plugin.applyAll fold_left]. rewrite app_nil_r.
    replace (List.length (trHistory s) - 26)%nat with 0%nat by lia.
    reflexivity.
  - unfold Plugin.applyAll. cbn [fold_left].
    fold (Plugin.applyAll trs (Plugin.apply tr s)).
    assert (Hbound : (List.length (trHistory (Plugin.apply tr s)) <= 26)%nat)
      by exact (applyAll_trHistory_bounded [tr] s Hs).
    rewrite (IH _ Hbound), apply_trHistory.
    destruct (Z.of_nat (List.length (trHistory s)) >? 25) eqn:E.
    + rewrite Z.gtb_ltb in E. apply Z.ltb_lt in E.
      destruct (trHistory s) as [|oldest rest]; cbn [List.length] in *; [lia|].
      cbn [tl]. rewrite <- !app_assoc. cbn [app].
      set (recent := rest ++ tr :: trs).
      assert (Hrecent : (26 <= List.length recent)%nat)
        by (subst recent; rewrite length_app; cbn [List.length]; lia).
      cbn [List.length].
      replace (S (List.length recent) - 26)%nat
        with (S (List.length recent - 26))%nat by lia.
      reflexivity.
    + rewrite <- app_assoc. reflexivity.
Qed.

(** X8.  The transaction history is the most recent transactions: after
    any sequence of transactions applied from the initial state it holds the
    last 26 of them (all of them when there are fewer), oldest first. *)
Theorem trHistory_is_recent_suffix
    (doc : Node) (throttleInMs maxThrottle : Z) (trs : list Transaction) :
  trHistory
    (Plugin.applyAll trs (createInitialState doc throttleInMs maxThrottle))
  = skipn (List.length trs - 26) trs.
Proof.
  rewrite applyAll_trHistory; [reflexivity|].
  cbn [createInitialState trHistory List.length]. lia.
Qed.

Lemma collect_ranges (trs : list Transaction) (acc : list IRange) :
  fold_left (fun acc range => acc ++ getReplaceStepRangesFromTransaction range)
            trs acc
  = acc ++ List.concat (map getReplaceStepRangesFromTransaction trs).
Proof.
  revert acc. induction trs as [|tr trs IH]; intros acc; cbn [fold_left map List.concat].
  - now rewrite app_nil_r.
  - rewrite IH. now rewrite app_assoc.
Qed.

Lemma appendTransaction_cases (trs : list Transaction)
    (viewPluginState pluginState : State) :
  appendTransaction trs viewPluginState pluginState
  = match List.concat (map getReplaceStepRangesFromTransaction trs) with
    | [] => ([], None)
    | _ :: _ =>
        ((if validationPending pluginState then []
          else [SetTimeout (currentThrottle viewPluginState)]),
         Some (applyNewDirtiedRanges
                 (List.concat (map getReplaceStepRangesFromTransaction trs))))
    end.
Proof.
  unfold Plugin.appendTransaction. rewrite collect_ranges. cbn [app].
  destruct (List.concat (map getReplaceStepRangesFromTransaction trs));
    [reflexivity|].
  cbn [List.length]. rewrite Nat2Z.inj_succ.
  replace (0 <? Z.succ _) with true by (symmetry; apply Z.ltb_lt; lia).
  unfold Plugin.scheduleValidation.
  now destruct (validationPending pluginState).
Qed.

(** X9.  When none of the transactions replaced anything (no transactions
    included), [appendTransaction] sets no timer and returns no
    transaction. *)
Theorem appendTransaction_nothing_replaced
    (trs : list Transaction) (viewPluginState pluginState : State) :
  (forall tr, In tr trs -> getReplaceStepRangesFromTransaction tr = []) ->
  appendTransaction trs viewPluginState pluginState = ([], None).
Proof.
  intros Hnone. rewrite appendTransaction_cases.
  replace (List.concat (map getReplaceStepRangesFromTransaction trs))
    with (@nil IRange); [reflexivity|].
  induction trs as [|tr trs IH]; [reflexivity|].
  cbn [map List.concat]. rewrite (Hnone tr) by now left.
  cbn [app]. apply IH. intros tr' Htr'. apply Hnone. now right.
Qed.

(** X10.  One timer per cycle.  When [appendTransaction] returns a
    transaction, it carries the ranges replaced by all the transactions, in
    their order, and a timer was set only if no validation was pending;
    once the plugin has applied the returned transaction a validation is
    pending, and no later [appendTransaction] sets a timer in that state. *)
Theorem appendTransaction_one_timer_per_cycle
    (trs : list Transaction) (viewPluginState pluginState : State)
    (effects : list Effect) (action : Action) (returned : Transaction) :
  appendTransaction trs viewPluginState pluginState = (effects, Some action) ->
  tr_meta returned = Some action ->
  action = applyNewDirtiedRanges
             (List.concat (map getReplaceStepRangesFromTransaction trs)) /\
  effects = (if validationPending pluginState then []
             else [SetTimeout (currentThrottle viewPluginState)]) /\
  validationPending (Plugin.apply returned pluginState) = true /\
  (forall trs' viewPluginState',
     fst (appendTransaction trs' viewPluginState'
            (Plugin.apply returned pluginState)) = []).
Proof.
  rewrite appendTransaction_cases.
  destruct (List.concat (map getReplaceStepRangesFromTransaction trs))
    as [|r rest] eqn:Hranges; [discriminate|].
  intros [= <- <-] Hmeta.
  assert (Hpending : validationPending (Plugin.apply returned pluginState) = true).
  { unfold Plugin.apply. rewrite Hmeta. reflexivity. }
  split; [reflexivity | split; [reflexivity | split; [exact Hpending|]]].
  intros trs' viewPluginState'. rewrite appendTransaction_cases, Hpending.
  now destruct (List.concat (map getReplaceStepRangesFromTransaction trs')).
Qed.

(** X11.  The request starts the next cycle.  Once the plugin has applied a
    transaction carrying the request for dirty ranges, no range is dirtied
    and no validation is pending; the next transactions that replace
    something set a timer again, for the throttle duration of the view's
    state. *)
Theorem request_restarts_cycle
    (pluginState viewPluginState : State) (expandRanges : ExpandRanges)
    (dispatched : Transaction) (trs : list Transaction) :
  tr_meta dispatched = Some (validationRequestForDirtyRanges expandRanges) ->
  List.concat (map getReplaceStepRangesFromTransaction trs) <> [] ->
  dirtiedRanges (Plugin.apply dispatched pluginState) = [] /\
  validationPending (Plugin.apply dispatched pluginState) = false /\
  appendTransaction trs viewPluginState (Plugin.apply dispatched pluginState)
  = ([SetTimeout (currentThrottle viewPluginState)],
     Some (applyNewDirtiedRanges
             (List.concat (map getReplaceStepRangesFromTransaction trs)))).
Proof.
  intros Hmeta Hsome.
  assert (Hstate :
    dirtiedRanges (Plugin.apply dispatched pluginState) = [] /\
    validationPending (Plugin.apply dispatched pluginState) = false).
  { unfold Plugin.apply. rewrite Hmeta. repeat split. }
  destruct Hstate as (Hdirty & Hpending).
  split; [exact Hdirty | split; [exact Hpending|]].
  rewrite appendTransaction_cases, Hpending.
  destruct (List.concat (map getReplaceStepRangesFromTransaction trs));
    [contradiction | reflexivity].
Qed.

End PluginFacts.

(** ** More on the service *)

Section ServiceFacts.

Context {Mapping Node : Type} `{PositionMapper Mapping} `{DocumentSource Node}.

Local Abbreviation State := (@IPluginState Mapping Node).

Lemma handleEvent_invariant (throttle : Z)
    (state : Service.ValidationService * nat)
    (event : @Service.ServiceEvent Mapping Node) :
  TimerInvariant throttle state ->
  TimerInvariant throttle (Service.handleEvent state event).
Proof.
  destruct state as [this timers]. unfold TimerInvariant. cbn [fst snd].
  intros (Hle & Hiff & Hthrottle).
  destruct event as [|pluginState]; cbn [Service.handleEvent].
  - unfold Service.scheduleValidation.
    destruct (Service.validationPending this) eqn:Hp; cbn [fst snd filter
      Service.isSetTimeout List.length Service.validationPending
      Service.currentThrottle].
    + rewrite Nat.add_0_r. rewrite Hp. auto.
    + assert (timers = 0%nat) by (destruct Hiff as [_ Hback];
        destruct timers as [|[|n]]; [reflexivity | | lia];
        specialize (Hback eq_refl); discriminate).
      subst. cbn. repeat split; auto.
  - destruct timers as [|timers'].
    + cbn [fst snd]. auto.
    + assert (timers' = 0%nat) by lia. subst.
      unfold Service.requestValidation, Service.scheduleValidation.
      cbn [Service.validationPending Service.currentThrottle].
      destruct pluginState as [pluginState|].
      * destruct (0 <? Z.of_nat
                       (List.length (Service.selectValidationsInFlight pluginState)));
          cbn; repeat split; auto; try lia; discriminate.
      * cbn. repeat split; auto.
Qed.

(** X12.  At most one timer.  Whatever the store announces and whenever
    the timer fires, the service never has two timers set: after any
    sequence of events from a new service at most one timer is set, one is
    set exactly when [validationPending] is true, and the throttle duration
    is still the initial one. *)
Theorem service_at_most_one_timer
    (initialThrottle maxThrottle : Z)
    (events : list (@Service.ServiceEvent Mapping Node)) :
  let state :=
    Service.handleEvents events
      (Service.newValidationService initialThrottle maxThrottle, 0%nat) in
  (snd state <= 1)%nat /\
  (Service.validationPending (fst state) = true <-> snd state = 1%nat) /\
  Service.currentThrottle (fst state) = initialThrottle.
Proof.
  cbv zeta.
  assert (Hstart : TimerInvariant initialThrottle
            (Service.newValidationService initialThrottle maxThrottle, 0%nat)).
  { unfold TimerInvariant. cbn. repeat split; auto; discriminate. }
  revert Hstart.
  generalize (Service.newValidationService initialThrottle maxThrottle, 0%nat).
  induction events as [|event events IH]; intros state Hinv.
  - exact Hinv.
  - unfold Service.handleEvents. cbn [fold_left]. apply IH.
    now apply handleEvent_invariant.
Qed.

(** X13.  A firing does exactly one thing: it calls the command when the
    store has a state with nothing in flight, and sets one timer for the
    current throttle duration otherwise, also when the store has no state.
    The service is left pending exactly when the timer was set. *)
Theorem firing_does_one_thing
    (this : Service.ValidationService) (pluginState : option State) :
  let idle :=
    match pluginState with
    | Some state => match validationsInFlight state with [] => true | _ => false end
    | None => false
    end in
  snd (Service.requestValidation this pluginState)
  = (if idle then [ValidateDirtyRangesCommand]
     else [SetTimeout (Service.currentThrottle this)]) /\
  Service.validationPending (fst (Service.requestValidation this pluginState))
  = negb idle /\
  Service.currentThrottle (fst (Service.requestValidation this pluginState))
  = Service.currentThrottle this.
Proof.
  cbv zeta. unfold Service.requestValidation, Service.selectValidationsInFlight.
  destruct pluginState as [state|]; [| repeat split].
  destruct (validationsInFlight state); repeat split.
Qed.

(** X14.  Adding a category whose id is not among the fetched categories
    changes nothing. *)
Theorem addCategory_unknown_id
    (this : Service.ServiceCategories) (categoryId : string) :
  (forall c, In c (Service.allCategories this) -> cat_id c <> categoryId) ->
  Service.addCategory this categoryId = this.
Proof.
  intros Hunknown. unfold Service.addCategory.
  destruct (find _ (Service.allCategories this)) as [c|] eqn:Hfind;
    [| reflexivity].
  apply find_some in Hfind. destruct Hfind as [Hin Heq].
  apply String.eqb_eq in Heq. now elim (Hunknown c Hin).
Qed.

(** X15.  Adding a category whose id is among the fetched categories
    appends one fetched category with that id to the current ones, whether
    or not it is current already: the current categories are not kept free
    of duplicates. *)
Theorem addCategory_known_id
    (this : Service.ServiceCategories) (categoryId : string) (c : ICategory) :
  In c (Service.allCategories this) ->
  cat_id c = categoryId ->
  exists added,
    In added (Service.allCategories this) /\
    cat_id added = categoryId /\
    Service.currentCategories (Service.addCategory this categoryId)
    = Service.currentCategories this ++ [added] /\
    Service.allCategories (Service.addCategory this categoryId)
    = Service.allCategories this.
Proof.
  intros Hin Hid. unfold Service.addCategory.
  destruct (find _ (Service.allCategories this)) as [added|] eqn:Hfind.
  - apply find_some in Hfind. destruct Hfind as [Hadded Heq].
    apply String.eqb_eq in Heq. exists added. repeat split; auto.
  - apply (find_none _ _ Hfind) in Hin. apply String.eqb_neq in Hin.
    contradiction.
Qed.

(** X16.  Removing a category removes every current category with that
    id and no other, and removing it again changes nothing. *)
Theorem removeCategory_removes_every
    (this : Service.ServiceCategories) (categoryId : string) :
  (forall c,
     In c (Service.currentCategories (Service.removeCategory this categoryId))
     <-> In c (Service.currentCategories this) /\ cat_id c <> categoryId) /\
  Service.removeCategory (Service.removeCategory this categoryId) categoryId
  = Service.removeCategory this categoryId.
Proof.
  split.
  - intros c. cbn [Service.removeCategory Service.currentCategories].
    rewrite filter_In, negb_true_iff, String.eqb_neq. reflexivity.
  - unfold Service.removeCategory.
    cbn [Service.currentCategories Service.allCategories]. f_equal.
    induction (Service.currentCategories this) as [|c rest IH];
      [reflexivity|].
    cbn [filter]. destruct (negb (String.eqb (cat_id c) categoryId)) eqn:E.
    + cbn [filter]. rewrite E. now f_equal.
    + exact IH.
Qed.

(** X17.  Adding a category and removing it again gives back the current
    categories, provided none of them had that id before. *)
Theorem add_then_remove_category
    (this : Service.ServiceCategories) (categoryId : string) :
  (forall c, In c (Service.currentCategories this) -> cat_id c <> categoryId) ->
  Service.removeCategory (Service.addCategory this categoryId) categoryId = this.
Proof.
  intros Hfresh.
  assert (Hkeep :
    filter (fun c => negb (String.eqb (cat_id c) categoryId))
           (Service.currentCategories this)
    = Service.currentCategories this).
  { induction (Service.currentCategories this) as [|c rest IH];
      [reflexivity|].
    cbn [filter].
    replace (String.eqb (cat_id c) categoryId) with false
      by (symmetry; apply String.eqb_neq; apply Hfresh; now left).
    cbn [negb]. f_equal. apply IH. intros c' Hc'. apply Hfresh. now right. }
  unfold Service.addCategory, Service.removeCategory.
  destruct (find _ (Service.allCategories this)) as [added|] eqn:Hfind;
    cbn [Service.currentCategories Service.allCategories].
  - apply find_some in Hfind. destruct Hfind as [_ Heq].
    rewrite filter_app, Hkeep. cbn [filter]. rewrite Heq. cbn [negb].
    rewrite app_nil_r. now destruct this.
  - rewrite Hkeep. now destruct this.
Qed.

(** X18.  The current categories stay among the fetched ones: if they are
    before a call of [addCategory] or [removeCategory], they are after
    it. *)
Theorem current_categories_stay_fetched
    (this : Service.ServiceCategories) (categoryId : string) :
  (forall c, In c (Service.currentCategories this) ->
             In c (Service.allCategories this)) ->
  (forall c,
     In c (Service.currentCategories (Service.addCategory this categoryId)) ->
     In c (Service.allCategories (Service.addCategory this categoryId))) /\
  (forall c,
     In c (Service.currentCategories (Service.removeCategory this categoryId)) ->
     In c (Service.allCategories (Service.removeCategory this categoryId))).
Proof.
  intros Hsub. split; intros c.
  - unfold Service.addCategory.
    destruct (find _ (Service.allCategories this)) as [added|] eqn:Hfind;
      [| apply Hsub].
    cbn [Service.currentCategories Service.allCategories].
    apply find_some in Hfind. destruct Hfind as [Hadded _].
    intros Hc. apply in_app_or in Hc.
    destruct Hc as [Hc | [<- | []]]; [now apply Hsub | exact Hadded].
  - cbn [Service.removeCategory Service.currentCategories Service.allCategories].
    intros Hc. apply filter_In in Hc. now apply Hsub.
Qed.

End ServiceFacts.

(** ** The decoration helpers *)

Section DecorationFacts.

Context {DecorationSet Node : Type}
        `{Decorations.DecorationSetOps DecorationSet Node}.



(** X20.  A list of matches gets two decorations per match, the highlight
    and the height marker, and one more for every match marked as
    correct. *)
Theorem decorations_count (matches : list Decorations.IMatch) :
  List.length (Decorations.createDecorationsForMatches matches)
  = (2 * List.length matches
     + List.length (filter Decorations.markAsCorrect matches))%nat.
Proof.
  unfold Decorations.createDecorationsForMatches.
  induction matches as [|m rest IH]; [reflexivity|].
  cbn [map List.concat filter]. rewrite length_app, IH.
  unfold Decorations.createDecorationsForMatch.
  destruct (Decorations.markAsCorrect m); cbn [List.length app]; lia.
Qed.

(** X21.  When no decoration of the given types is found on any of the
    ranges (no ranges included), [removeDecorationsFromRanges] gives the
    decoration set back as it is. *)
Theorem removeDecorationsFromRanges_nothing_found
    (decorationSet : DecorationSet) (ranges : list IRange)
    (types : list Decorations.DecorationType) :
  (forall range, In range ranges ->
     Decorations.find decorationSet (Some (from range)) (Some (to range))
       (fun spec => existsb (Decorations.typeEqb (Decorations.spec_type spec))
                            types)
     = []) ->
  Decorations.removeDecorationsFromRanges decorationSet ranges types
  = decorationSet.
Proof.
  intros Hnone. unfold Decorations.removeDecorationsFromRanges.
  set (step := fun acc range => _).
  assert (Hfold : forall acc, fold_left step ranges acc = acc);
    [| apply Hfold].
  induction ranges as [|range rest IH]; intros acc; [reflexivity|].
  cbn [fold_left]. rewrite IH by (intros r Hr; apply Hnone; now right).
  subst step. cbv beta. rewrite (Hnone range) by now left.
  reflexivity.
Qed.

End DecorationFacts.

(** ** The properties on the host *)

Module Scenarios.
Import Host.

Lemma step_reachable time action state :
  Reachable state -> Reachable (step time action state).
Proof. intros Hr. unfold step. now apply Reachable_reduce. Qed.

Lemma initial_reachable : Reachable initial.
Proof. exact (Reachable_initial "The quick brown fox"%string 2000 8000). Qed.

(** Three characters inserted at offset 2 move [[4,6)] to [[7,9)]. *)
Example insertion_shifts_range :
  mapRange (mkRange 4 6) [[mkSpan 2 0 3]] = mkRange 7 9.
Proof. reflexivity. Qed.

(** The reducer on the mapping scenario of the specification: while the
    request [r1] for [[0,10)] is in flight an edit inserts three characters
    at offset 2; the response's match at the original [[4,6)] is accepted at
    [[7,9)]. *)
Example match_relocated_through_edit :
  currentValidations
    (step 2 (validationRequestSuccess (Some (mkResponse "r1" [output "m1" 4 6])))
       (validationPluginReducer
          {| tr_mapping := [[mkSpan 2 0 3]];
             tr_doc := "Th---e quick brown fox"%string;
             tr_time := 1;
             tr_meta := None |}
          oneInFlight None))
  = [output "m1" 7 9].
Proof. reflexivity. Qed.

(** On the host a new mapping relocates nothing. *)
Lemma newMapping_is_identity (f t : Z) :
  mapFromTo (newMapping : Mapping) f t = (f, t).
Proof. reflexivity. Qed.

(** C1 on the scenario of the specification: a request for [[5,10)] is in
    flight, [[6,7)] is dirtied, and the response's match over [[5,10)] is
    not accepted. *)
Lemma stale_result_rejected_witness :
  selectValidationInFlightById (mapThroughTransaction (tr0 3) dirtiedAfterRequest)
                               "1" = Some requestAt1 /\
  ~ In (mapRange (output "m1" 5 10) (mapping requestAt1))
       (currentValidations
          (validationPluginReducer (tr0 3) dirtiedAfterRequest
             (Some (validationRequestSuccess
                      (Some (mkResponse "1" [output "m1" 5 10])))))).
Proof.
  split; [reflexivity|].
  apply (stale_result_rejected (tr0 3) dirtiedAfterRequest "1"
           [output "m1" 5 10] requestAt1 (output "m1" 5 10) (mkRange 6 7)).
  - reflexivity.
  - left; reflexivity.
  - left; reflexivity.
  - split; reflexivity.
Defined.

(** C3 on two current validations, [[2,4)] and [[12,14)], when [[3,5)] is
    dirtied: the first goes, the second stays. *)
Lemma ranges_dirtied_evicts_overlapping_witness :
  validationPending
    (validationPluginReducer (tr0 1) twoValidations
       (Some (applyNewDirtiedRanges [mkRange 3 5]))) = true /\
  ~ In (output "m1" 2 4)
       (currentValidations
          (validationPluginReducer (tr0 1) twoValidations
             (Some (applyNewDirtiedRanges [mkRange 3 5])))) /\
  In (output "m2" 12 14)
     (currentValidations
        (validationPluginReducer (tr0 1) twoValidations
           (Some (applyNewDirtiedRanges [mkRange 3 5])))).
Proof.
  destruct (ranges_dirtied_evicts_overlapping (tr0 1) twoValidations
              [mkRange 3 5]) as (Hpending & Hevict & Hkeep).
  split; [exact Hpending | split].
  - apply (Hevict (output "m1" 2 4) (mkRange 3 5)).
    + left; reflexivity.
    + left; reflexivity.
    + split; reflexivity.
  - apply Hkeep.
    + right; left; reflexivity.
    + intros r [<- | []] [_ Hlt]. discriminate Hlt.
Defined.

(** C5 on the scenario of the specification: initial state, [[0,10)]
    dirtied, request with the identity expand function. *)
Lemma request_for_dirty_ranges_starts_requests_witness :
  dirtiedRanges
    (validationPluginReducer (tr0 7) dirtied0to10
       (Some (validationRequestForDirtyRanges expandIdentity))) = [] /\
  exists entry,
    validationsInFlight
      (validationPluginReducer (tr0 7) dirtied0to10
         (Some (validationRequestForDirtyRanges expandIdentity)))
    = validationsInFlight (mapThroughTransaction (tr0 7) dirtied0to10) ++ [entry] /\
    validationInputToRange (validationInput entry) = mkRange 0 10 /\
    inputString (validationInput entry) = textBetween (tr_doc (tr0 7)) 0 10 /\
    mapping entry = newMapping.
Proof.
  destruct (request_for_dirty_ranges_starts_requests (tr0 7) dirtied0to10
              expandIdentity) as (Hdirty & _ & _ & Hone).
  split; [exact Hdirty|].
  apply Hone.
  - reflexivity.
  - intros ranges doc. reflexivity.
Defined.

(** C9 on the initial state, where nothing is in flight. *)
Lemma success_for_unknown_id_is_noop_witness :
  validationPluginReducer (tr0 1) initial
    (Some (validationRequestSuccess
             (Some (mkResponse "gone" [output "m1" 2 4]))))
  = validationPluginReducer (tr0 1) initial None.
Proof.
  apply (success_for_unknown_id_is_noop (tr0 1) initial "gone"
           [output "m1" 2 4]).
  reflexivity.
Defined.

(** The service with one request in flight: the firing sets a timer for
    the service's 2000 ms and does nothing else. *)
Lemma fire_while_in_flight_defers_witness :
  snd (Service.requestValidation service (Some oneInFlight))
  = [SetTimeout 2000].
Proof.
  assert (Hinflight : validationsInFlight oneInFlight <> []) by discriminate.
  destruct (fire_while_in_flight_defers service oneInFlight Hinflight)
    as (Heq & _).
  exact (f_equal snd Heq).
Defined.

(** C10 after 26 and after 27 transactions: the history holds 26, and the
    27th pushes the oldest out. *)
Lemma trHistory_bounded_witness :
  List.length (trHistory (Plugin.applyAll (map tr0 (map Z.of_nat (seq 0 26)))
                                          initial)) = 26%nat /\
  map tr_time
      (trHistory
         (Plugin.apply (tr0 26)
            (Plugin.applyAll (map tr0 (map Z.of_nat (seq 0 26))) initial)))
  = map Z.of_nat (seq 1 26).
Proof.
  split; [reflexivity|].
  destruct (trHistory_bounded "The quick brown fox"%string 2000 8000 [])
    as (_ & Hdrop).
  rewrite (Hdrop (Plugin.applyAll (map tr0 (map Z.of_nat (seq 0 26))) initial)
                 (tr0 26)).
  - reflexivity.
  - vm_compute. repeat constructor.
Defined.

(** The failed request on the scenario of the specification: request [r1]
    for [[0,10)] fails with "network error".  The same error in the initial
    state, where nothing is in flight, only leaves its message. *)
Lemma request_failed_redirties_error_input_witness :
  dirtiedRanges
    (validationPluginReducer (tr0 1) oneInFlight
       (Some (validationRequestError
                (mkError "r1" (mkInput 0 10 "The quick ") "network error"))))
  = [mkRange 0 10] /\
  validationsInFlight
    (validationPluginReducer (tr0 1) oneInFlight
       (Some (validationRequestError
                (mkError "r1" (mkInput 0 10 "The quick ") "network error"))))
  = [] /\
  error
    (validationPluginReducer (tr0 1) oneInFlight
       (Some (validationRequestError
                (mkError "r1" (mkInput 0 10 "The quick ") "network error"))))
  = Some "network error"%string /\
  dirtiedRanges
    (validationPluginReducer (tr0 1) initial
       (Some (validationRequestError
                (mkError "r1" (mkInput 0 10 "The quick ") "network error"))))
  = [].
Proof.
  destruct (request_failed_redirties_error_input (tr0 1) oneInFlight
              (mkError "r1" (mkInput 0 10 "The quick ") "network error"))
    as (Herror & Hfound & _).
  destruct (Hfound requestR1 eq_refl)
    as ((before & after & Hsplit & Hno & Hrest) & _ & Hdirty).
  destruct (request_failed_redirties_error_input (tr0 1) initial
              (mkError "r1" (mkInput 0 10 "The quick ") "network error"))
    as (_ & _ & Habsent).
  destruct (Habsent eq_refl) as (Hsame & _).
  split; [| split; [| split]].
  - rewrite (Hdirty eq_refl). reflexivity.
  - reflexivity.
  - exact Herror.
  - rewrite Hsame. reflexivity.
Defined.

(** Neither half of the no-overlap invariant holds in every reachable
    state.  A response with two overlapping matches is accepted whole; and
    when a request fails, its range is dirtied again while a validation
    accepted inside that range stays. *)
Lemma no_overlap_invariant_counterexample :
  ~ (forall s : State, Reachable s -> ValidationsPairwiseDisjoint s) /\
  ~ (forall s : State, Reachable s -> ValidationsClearOfDirtied s).
Proof.
  split; intros Hall.
  - assert (Hr : Reachable overlappingMatches)
      by (repeat apply step_reachable; apply initial_reachable).
    apply (Hall _ Hr [] (output "m1" 0 5) [output "m2" 3 8] (output "m2" 3 8)).
    + reflexivity.
    + left; reflexivity.
    + split; reflexivity.
  - assert (Hr : Reachable secondFailedAfterSuccess)
      by (repeat apply step_reachable; apply initial_reachable).
    apply (Hall _ Hr (output "m1" 2 4) (mkRange 0 10)).
    + left; reflexivity.
    + left; reflexivity.
    + split; reflexivity.
Qed.

(** On the stale-result scenario: after the response no current
    validation overlaps a dirtied range, and the match clear of the
    dirtied range is the one accepted.  On the two current validations,
    dirtying [[3,5)] keeps validations and dirtied ranges apart. *)
Lemma validations_clear_of_dirtied_per_transition_witness :
  ValidationsClearOfDirtied
    (validationPluginReducer (tr0 3) dirtiedAfterRequest
       (Some (validationRequestSuccess
                (Some (mkResponse "1" [output "m1" 5 10; output "m2" 8 10]))))) /\
  currentValidations
    (validationPluginReducer (tr0 3) dirtiedAfterRequest
       (Some (validationRequestSuccess
                (Some (mkResponse "1" [output "m1" 5 10; output "m2" 8 10])))))
  = [output "m2" 8 10] /\
  ValidationsClearOfDirtied
    (validationPluginReducer (tr0 1) twoValidations
       (Some (applyNewDirtiedRanges [mkRange 3 5]))).
Proof.
  destruct (validations_clear_of_dirtied_per_transition (tr0 3)
              dirtiedAfterRequest) as (Hsuccess & _).
  destruct (validations_clear_of_dirtied_per_transition (tr0 1)
              twoValidations) as (_ & _ & _ & _ & Hkeep).
  split; [| split; [reflexivity |]].
  - apply (Hsuccess (mkResponse "1" [output "m1" 5 10; output "m2" 8 10])
                    requestAt1).
    reflexivity.
  - apply Hkeep.
    + intros validationError Habs. discriminate Habs.
    + intros v d _ [].
Defined.

(** C7 fails on the code: from the initial state, [[0,10)] is dirtied and
    then [[5,8)]; the second transition appends the new range to the
    dirtied ranges without merging, so the reachable state holds two
    overlapping dirtied ranges.  The same happens in one transition that
    dirties both ranges. *)
Theorem ranges_dirtied_appends_unmerged :
  Reachable dirtiedTwice /\
  dirtiedRanges dirtiedTwice = [mkRange 0 10; mkRange 5 8] /\
  Overlaps (mkRange 0 10) (mkRange 5 8) /\
  ~ Merged (dirtiedRanges dirtiedTwice) /\
  dirtiedRanges (step 1 (applyNewDirtiedRanges [mkRange 0 10; mkRange 5 8])
                   initial)
  = [mkRange 0 10; mkRange 5 8].
Proof.
  split; [| split; [| split; [| split]]].
  - repeat apply step_reachable. apply initial_reachable.
  - reflexivity.
  - split; reflexivity.
  - intros [Hgap _]. specialize (Hgap (mkRange 5 8) (or_introl eq_refl)).
    discriminate Hgap.
  - reflexivity.
Qed.

(** C8 fails on the code: one request transition at time 7 for two ranges
    appends two in-flight entries, and both carry the id "7"; a further
    request in a transaction with the same timestamp appends an entry with
    the id of those already in flight. *)
Theorem request_start_ids_collide :
  Reachable twoRequested /\
  map id (appendedInFlight (mapThroughTransaction (tr0 7) initial) twoRequested)
  = ["7"%string; "7"%string] /\
  map (fun entry => validationInputToRange (validationInput entry))
      (appendedInFlight (mapThroughTransaction (tr0 7) initial) twoRequested)
  = [mkRange 0 5; mkRange 10 15] /\
  map id (validationsInFlight
            (step 7 (validationRequestForDirtyRanges (expandTo [mkRange 16 19]))
               twoRequested))
  = ["7"%string; "7"%string; "7"%string].
Proof.
  split; [| split; [| split]]; try reflexivity.
  apply step_reachable, initial_reachable.
Qed.

(** On the host mappings compose. *)
Lemma host_mapper_composes : @MapperComposes Mapping StepMapping.
Proof.
  split; [reflexivity|].
  intros a b f t. cbn [mapFromTo StepMapping fst snd appendMapping].
  unfold mapPos. now rewrite !fold_left_app.
Qed.

(** X1 after a success and a failure: still the 2000 ms given at the
    start. *)
Lemma throttle_never_backs_off_witness :
  currentThrottle secondFailedAfterSuccess = 2000 /\
  currentThrottle secondFailedAfterSuccess
  = initialThrottle secondFailedAfterSuccess.
Proof.
  split; [reflexivity|].
  apply (throttle_never_backs_off secondFailedAfterSuccess).
  repeat apply step_reachable. apply initial_reachable.
Defined.

(** X2: the error of the failed request is still there after a later
    success response. *)
Lemma error_persists_witness :
  error (validationPluginReducer (tr0 5) secondFailedAfterSuccess
           (Some (validationRequestSuccess
                    (Some (mkResponse "1" [output "m2" 6 8])))))
  <> None.
Proof.
  apply (error_persists (tr0 5) secondFailedAfterSuccess
           (Some (validationRequestSuccess
                    (Some (mkResponse "1" [output "m2" 6 8]))))).
  discriminate.
Defined.

(** X4 on the stale-result scenario: the response takes the one request
    out of flight and leaves [[6,7)] dirtied. *)
Lemma success_resolves_one_entry_witness :
  dirtiedRanges
    (validationPluginReducer (tr0 3) dirtiedAfterRequest
       (Some (validationRequestSuccess
                (Some (mkResponse "1" [output "m1" 5 10])))))
  = dirtiedRanges (mapThroughTransaction (tr0 3) dirtiedAfterRequest) /\
  validationsInFlight
    (validationPluginReducer (tr0 3) dirtiedAfterRequest
       (Some (validationRequestSuccess
                (Some (mkResponse "1" [output "m1" 5 10])))))
  = [].
Proof.
  destruct (success_resolves_one_entry (tr0 3) dirtiedAfterRequest
              (mkResponse "1" [output "m1" 5 10]) requestAt1)
    as (_ & Hdirty & _).
  - reflexivity.
  - split; [exact Hdirty | reflexivity].
Defined.

(** X5 with two requests in flight when a range is dirtied. *)
Lemma in_flight_kept_until_resolved_witness :
  exists added : list (@IValidationInFlight Mapping),
    map inFlightKey
        (validationsInFlight
           (validationPluginReducer (tr0 8) twoRequested
              (Some (applyNewDirtiedRanges [mkRange 1 2]))))
    = map inFlightKey (validationsInFlight twoRequested)
      ++ map inFlightKey added.
Proof.
  apply (in_flight_kept_until_resolved (tr0 8) twoRequested
           (Some (applyNewDirtiedRanges [mkRange 1 2]))).
  - intros response. discriminate.
  - intros validationError. discriminate.
Defined.

(** X6 with the request [r1] in flight while three characters are
    inserted at offset 2 and four are then deleted from offset 6. *)
Lemma in_flight_mapping_accumulates_witness :
  Forall2 (fun entry entry' : @IValidationInFlight Mapping =>
             inFlightKey entry' = inFlightKey entry /\
             forall f t,
               mapFromTo (mapping entry') f t
               = mapFromToThrough [insertThreeAt2; deleteFourAt6]
                                  (mapFromTo (mapping entry) f t))
          (validationsInFlight oneInFlight)
          (validationsInFlight
             (reduceAll [insertThreeAt2; deleteFourAt6] oneInFlight)).
Proof.
  apply (in_flight_mapping_accumulates [insertThreeAt2; deleteFourAt6]
           oneInFlight).
  exact host_mapper_composes.
Defined.

(** X9 with two transactions that replace nothing. *)
Lemma appendTransaction_nothing_replaced_witness :
  Plugin.appendTransaction replacedRanges [tr0 1; tr0 2] initial initial
  = ([], None).
Proof.
  apply (appendTransaction_nothing_replaced replacedRanges [tr0 1; tr0 2]
           initial initial).
  intros tr [<- | [<- | []]]; reflexivity.
Defined.

(** X10 after the insertion at offset 2 in the initial state. *)
Lemma appendTransaction_one_timer_per_cycle_witness :
  Plugin.appendTransaction replacedRanges [insertThreeAt2] initial
    (Plugin.apply insertThreeAt2 initial)
  = ([SetTimeout 2000], Some (applyNewDirtiedRanges [mkRange 2 5])) /\
  validationPending
    (Plugin.apply (appended 3 (applyNewDirtiedRanges [mkRange 2 5]))
                  (Plugin.apply insertThreeAt2 initial))
  = true /\
  fst (Plugin.appendTransaction replacedRanges [insertThreeAt2]
         (Plugin.apply insertThreeAt2 initial)
         (Plugin.apply (appended 3 (applyNewDirtiedRanges [mkRange 2 5]))
                       (Plugin.apply insertThreeAt2 initial)))
  = [].
Proof.
  split; [reflexivity|].
  destruct (appendTransaction_one_timer_per_cycle replacedRanges
              [insertThreeAt2] initial (Plugin.apply insertThreeAt2 initial)
              [SetTimeout 2000]
              (applyNewDirtiedRanges [mkRange 2 5])
              (appended 3 (applyNewDirtiedRanges [mkRange 2 5])))
    as (_ & _ & Hpending & Hquiet).
  - reflexivity.
  - reflexivity.
  - split; [exact Hpending |].
    exact (Hquiet [insertThreeAt2] (Plugin.apply insertThreeAt2 initial)).
Defined.

(** X11 after the request that follows. *)
Lemma request_restarts_cycle_witness :
  Plugin.appendTransaction replacedRanges [insertThreeAt2] initial
    (Plugin.apply
       (appended 5 (validationRequestForDirtyRanges expandIdentity))
       (Plugin.apply (appended 3 (applyNewDirtiedRanges [mkRange 2 5]))
                     initial))
  = ([SetTimeout 2000], Some (applyNewDirtiedRanges [mkRange 2 5])).
Proof.
  destruct (request_restarts_cycle replacedRanges
              (Plugin.apply (appended 3 (applyNewDirtiedRanges [mkRange 2 5]))
                            initial)
              initial
              expandIdentity
              (appended 5 (validationRequestForDirtyRanges expandIdentity))
              [insertThreeAt2])
    as (_ & _ & Hagain).
  - reflexivity.
  - discriminate.
  - exact Hagain.
Defined.

(** X14, X15, X17 and X18 with spelling current and spelling and grammar
    fetched. *)
Lemma addCategory_unknown_id_witness :
  Service.addCategory categories "style" = categories.
Proof.
  apply (addCategory_unknown_id categories "style").
  intros c [<- | [<- | []]]; discriminate.
Defined.

Lemma addCategory_known_id_witness :
  exists added,
    In added (Service.allCategories categories) /\
    cat_id added = "spelling"%string /\
    Service.currentCategories (Service.addCategory categories "spelling")
    = Service.currentCategories categories ++ [added] /\
    Service.allCategories (Service.addCategory categories "spelling")
    = Service.allCategories categories.
Proof.
  apply (addCategory_known_id categories "spelling" spelling).
  - left; reflexivity.
  - reflexivity.
Defined.

Lemma add_then_remove_category_witness :
  Service.removeCategory (Service.addCategory categories "grammar") "grammar"
  = categories.
Proof.
  apply (add_then_remove_category categories "grammar").
  intros c [<- | []]. discriminate.
Defined.

Lemma current_categories_stay_fetched_witness :
  In grammar (Service.currentCategories (Service.addCategory categories "grammar")) /\
  In grammar (Service.allCategories (Service.addCategory categories "grammar")).
Proof.
  assert (Hcurrent :
    In grammar
       (Service.currentCategories (Service.addCategory categories "grammar")))
    by (right; left; reflexivity).
  split; [exact Hcurrent|].
  destruct (current_categories_stay_fetched categories "grammar")
    as [Hadd _].
  - intros c [<- | []]. left; reflexivity.
  - exact (Hadd grammar Hcurrent).
Defined.


(** X21 on the decorations of a match at [[2,4)], cleared on [[10,12)]. *)
Lemma removeDecorationsFromRanges_nothing_found_witness :
  Decorations.removeDecorationsFromRanges
    (Decorations.createDecorationsForMatches [aMatch])
    [mkRange 10 12] Decorations.defaultTypes
  = Decorations.createDecorationsForMatches [aMatch].
Proof.
  apply (removeDecorationsFromRanges_nothing_found
           (Decorations.createDecorationsForMatches [aMatch])
           [mkRange 10 12] Decorations.defaultTypes).
  intros range [<- | []]. reflexivity.
Defined.

(** X22 on the failure after a success: the match at [[2,4)] is still
    current. *)
Lemma validations_kept_by_other_actions_witness :
  currentValidations secondFailedAfterSuccess = [output "m1" 2 4].
Proof.
  unfold secondFailedAfterSuccess, step.
  rewrite (validations_kept_by_other_actions (tr0 4) firstSucceeded
             (Some (validationRequestError
                      (mkError "2" (mkInput 0 10 "The quick ")
                               "network error")))).
  - reflexivity.
  - intros ranges. discriminate.
  - intros response. discriminate.
Defined.

(** C2 fails on the plugin's timer: with two requests in flight (a
    reachable state) the firing dispatches the request for dirty ranges
    all the same, where the service's timer, in the same state, defers.
    The guard reads [pluginState.validationInFlight], which no state has. *)
Theorem plugin_fire_while_in_flight_dispatches :
  Reachable twoRequested /\
  List.length (validationsInFlight twoRequested) = 2%nat /\
  Plugin.requestValidation expandIdentity twoRequested
  = [Dispatch (validationRequestForDirtyRanges expandIdentity)] /\
  snd (Service.requestValidation service (Some twoRequested))
  = [SetTimeout 2000].
Proof.
  split; [| split; [| split]]; try reflexivity.
  apply step_reachable, initial_reachable.
Qed.

(** C4 fails on the failure path: two requests for [[0,10)] are in flight,
    the first succeeds with a match at [[2,4)], the second fails.  The
    handler puts [[0,10)] back among the dirtied ranges and leaves the
    current validations as they are, so the reachable state holds a current
    validation that overlaps a dirtied range; dirtying [[0,10)] by a
    RangesDirtied transition instead evicts it. *)
Theorem request_failed_keeps_overlapping_validation :
  Reachable secondFailedAfterSuccess /\
  currentValidations secondFailedAfterSuccess = [output "m1" 2 4] /\
  dirtiedRanges secondFailedAfterSuccess = [mkRange 0 10] /\
  Overlaps (output "m1" 2 4) (mkRange 0 10) /\
  ~ ValidationsClearOfDirtied secondFailedAfterSuccess /\
  currentValidations
    (step 4 (applyNewDirtiedRanges [mkRange 0 10]) firstSucceeded) = [].
Proof.
  split; [| split; [| split; [| split; [| split]]]]; try reflexivity.
  - repeat apply step_reachable. apply initial_reachable.
  - split; reflexivity.
  - intros Hclear.
    apply (Hclear (output "m1" 2 4) (mkRange 0 10)).
    + left; reflexivity.
    + left; reflexivity.
    + split; reflexivity.
Qed.

(** C6 fails on the code when ids are shared: the two requests of one
    transaction, for [[0,5)] and [[10,15)], carry the same id, and the
    second fails.  The entry found by the id is the one for [[0,5)]: it is
    the one removed, while the failed request for [[10,15)] stays in
    flight, and the range merged into the dirtied ranges is not the found
    entry's but the one the error carries. *)
Theorem request_failed_finds_other_entry :
  Reachable twoRequested /\
  map id (validationsInFlight twoRequested) = ["7"%string; "7"%string] /\
  exists entry,
    selectValidationInFlightById (mapThroughTransaction (tr0 8) twoRequested)
                                 (err_id secondFailed) = Some entry /\
    mapRange (validationInputToRange (validationInput entry)) (mapping entry)
    = mkRange 0 5 /\
    dirtiedRanges
      (validationPluginReducer (tr0 8) twoRequested
         (Some (validationRequestError secondFailed)))
    = [mkRange 10 15] /\
    dirtiedRanges
      (validationPluginReducer (tr0 8) twoRequested
         (Some (validationRequestError secondFailed)))
    <> mergeRanges
         (dirtiedRanges (mapThroughTransaction (tr0 8) twoRequested) ++
          [mapRange (validationInputToRange (validationInput entry))
                    (mapping entry)]) /\
    map (fun v => validationInputToRange (validationInput v))
        (validationsInFlight
           (validationPluginReducer (tr0 8) twoRequested
              (Some (validationRequestError secondFailed))))
    = [mkRange 10 15].
Proof.
  split; [| split; [reflexivity|]].
  - apply step_reachable, initial_reachable.
  - eexists. split; [reflexivity|].
    split; [reflexivity | split; [reflexivity | split; [discriminate |]]].
    reflexivity.
Qed.

End Scenarios.
